(** * Wiki pages binding of the Redmine client (package redmine, wikies.go)

    A shallow embedding of wikies.go: the structs with their JSON tags, the
    six wiki operations, and the parts of the Go standard library they rest
    on (strconv.Itoa, net/url's Values.Encode and QueryEscape, the field
    rules of encoding/json).  The transport methods of [*Context] ([Get],
    [Put], [Del]) are calls to code outside wikies.go: an operation is a
    small program over those calls, run against an arbitrary transport. *)

From Stdlib Require Import ZArith Ascii String List Bool Lia.
From stdpp Require Import base strings list gmap sorting.

Open Scope Z_scope.

(* ================================================================== *)
(** ** Go values *)

(** A Go slice is either nil or a (possibly empty) sequence of elements. *)
Inductive slice (A : Type) : Type :=
| nil_slice
| mk_slice (elems : list A).
Arguments nil_slice {A}.
Arguments mk_slice {A} elems.

Definition elems {A} (s : slice A) : list A :=
  match s with
  | nil_slice => []
  | mk_slice l => l
  end.

(** Go's builtin [len] on a slice. *)
Definition len {A} (s : slice A) : Z := Z.of_nat (length (elems s)).

(** Go's [error] interface: [None] is the nil error, [Some msg] an error
    value with its message. *)
Definition error : Type := option string.

(** net/http status constants used by wikies.go. *)
Definition StatusOK : Z := 200.
Definition StatusCreated : Z := 201.
Definition StatusNoContent : Z := 204.

(** Go strings are byte sequences; a byte as a number. *)
Definition byte_val (c : ascii) : Z := Z.of_N (N_of_ascii c).

Definition byte_of (z : Z) : ascii := ascii_of_N (Z.to_N z).

(* ------------------------------------------------------------------ *)
(** *** strconv.Itoa *)

(** The decimal digit for [d] in [0..9]: ['0' + d]. *)
Definition digit_char (d : Z) : ascii := byte_of (48 + d).

(** strconv's formatBits for base 10: digits are produced from the least
    significant one by repeated division, each one written in front of
    those already produced.  [fuel] bounds the number of iterations. *)
Fixpoint format_digits (fuel : nat) (u : Z) (acc : string) : string :=
  match fuel with
  | O => acc
  | S fuel' =>
      if u <? 10 then String (digit_char u) acc
      else format_digits fuel' (u / 10) (String (digit_char (u mod 10)) acc)
  end.

(** Decimal rendering of an unsigned value; a value below [2^k] has at
    most [k] decimal digits, so [log2 u + 1] iterations are enough. *)
Definition FormatUint (u : Z) : string :=
  format_digits (S (Z.to_nat (Z.log2 u))) u "".

(** [strconv.Itoa(i)]: a leading '-' for negative values, then the digits
    of the magnitude. *)
Definition Itoa (i : Z) : string :=
  if i <? 0 then String "-" (FormatUint (- i)) else FormatUint i.

(** Reading a decimal numeral back: the value of a digit ... *)
Definition digit_val (c : ascii) : option Z :=
  let v := byte_val c in
  if (48 <=? v) && (v <=? 57) then Some (v - 48) else None.

(** ... and of a non-empty run of digits, most significant first. *)
Fixpoint parse_digits (s : string) (acc : Z) : option Z :=
  match s with
  | EmptyString => Some acc
  | String c s' =>
      match digit_val c with
      | Some d => parse_digits s' (10 * acc + d)
      | None => None
      end
  end.

Definition ParseUint (s : string) : option Z :=
  match s with
  | EmptyString => None
  | _ => parse_digits s 0
  end.

(** Bounds of Go's [int] on a 64-bit platform. *)
Definition int_min : Z := - 2 ^ 63.
Definition int_max : Z := 2 ^ 63 - 1.

(** [strconv.ParseInt(s, 10, 64)]: an optional sign, at least one digit,
    and a value that fits; [None] stands for a returned error. *)
Definition ParseInt (s : string) : option Z :=
  let signed (neg : bool) (digits : string) :=
    match ParseUint digits with
    | Some u =>
        let v := if neg then - u else u in
        if (int_min <=? v) && (v <=? int_max) then Some v else None
    | None => None
    end in
  match s with
  | String "-" s' => signed true s'
  | String "+" s' => signed false s'
  | _ => signed false s
  end.

(* ================================================================== *)
(** ** net/url *)

(** The fields of [url.URL] that wikies.go sets, and [ForceQuery], which
    with [RawQuery] decides whether a rendered URL has a '?' part.  The
    composite literals of wikies.go leave every other field at its zero
    value. *)
Record URL : Type := mkURL {
  Path : string;
  RawQuery : string;
  ForceQuery : bool
}.

(** The query clause of [URL.String]: '?' and the raw query are appended
    when [ForceQuery] is set or [RawQuery] is not empty, nothing otherwise. *)
Definition query_component (u : URL) : string :=
  if ForceQuery u || negb (String.eqb (RawQuery u) "")
  then String "?" (RawQuery u)
  else "".

(** net/url's [shouldEscape] in mode [encodeQueryComponent]: letters,
    digits and the marks - _ . ~ are kept, every other byte is escaped. *)
Definition shouldEscape (c : ascii) : bool :=
  let v := byte_val c in
  if ((97 <=? v) && (v <=? 122)) || ((65 <=? v) && (v <=? 90))
     || ((48 <=? v) && (v <=? 57))
  then false
  else if (v =? 45) || (v =? 95) || (v =? 46) || (v =? 126)
  then false
  else true.

(** [upperhex[i]] for ["0123456789ABCDEF"]. *)
Definition upperhex (i : Z) : ascii :=
  if i <? 10 then byte_of (48 + i) else byte_of (55 + i).

(** One byte of [url.QueryEscape]: a space becomes '+', any other byte
    that must be escaped becomes %XX, the rest is copied. *)
Definition escape_byte (c : ascii) : string :=
  if shouldEscape c then
    if byte_val c =? 32 then "+"
    else String "%" (String (upperhex (Z.shiftr (byte_val c) 4))
                       (String (upperhex (Z.land (byte_val c) 15)) ""))
  else String c "".

Fixpoint QueryEscape (s : string) : string :=
  match s with
  | EmptyString => ""
  | String c s' => escape_byte c +:+ QueryEscape s'
  end.

(** [url.Values] is [map[string][]string]. *)
Abbreviation Values := (gmap string (list string)).

(** [Values.Add]: [v[key] = append(v[key], value)]. *)
Definition Values_Add (v : Values) (key value : string) : Values :=
  <[key := default [] (v !! key) ++ [value]]> v.

(** Byte-wise lexicographic order on strings, as [slices.Sort] uses. *)
Definition string_le (s t : string) : Prop := String.leb s t = true.

#[global] Instance string_le_dec s t : Decision (string_le s t).
Proof. unfold string_le. apply _. Defined.

(** The sorted keys of a [Values] map. *)
Definition sorted_keys (v : Values) : list string :=
  merge_sort string_le (map fst (map_to_list v)).

(** The inner loop of [Values.Encode] for one key: each value is written
    as key=value, with '&' in front when the buffer is not empty. *)
Fixpoint encode_values (buf keyEscaped : string) (vs : list string) : string :=
  match vs with
  | [] => buf
  | x :: vs' =>
      let buf1 := if String.eqb buf "" then buf else buf +:+ "&" in
      encode_values (buf1 +:+ keyEscaped +:+ "=" +:+ QueryEscape x) keyEscaped vs'
  end.

(** [Values.Encode]: the keys in sorted order, each with all its values. *)
Definition Values_Encode (v : Values) : string :=
  fold_left
    (fun buf k => encode_values buf (QueryEscape k) (default [] (v !! k)))
    (sorted_keys v) "".

(** [strings.Join]. *)
Fixpoint Join (xs : list string) (sep : string) : string :=
  match xs with
  | [] => ""
  | [x] => x
  | x :: rest => x +:+ sep +:+ Join rest sep
  end.

(** Modelled from the spec: [urlIncludes], the helper of package redmine
    that is declared outside wikies.go.  A supplied include-set is written
    as one comma-joined query parameter named [include]; nothing is added
    for an empty one. *)
Definition urlIncludes_spec (urlParams : Values) (includes : slice string) : Values :=
  if 0 <? len includes
  then Values_Add urlParams "include" (Join (elems includes) ",")
  else urlParams.

(* ================================================================== *)
(** ** encoding/json *)

(** JSON documents as trees.  A number carries its literal; a string
    carries the Go string it is written from or read into (quoting and
    the coercion to valid UTF-8 happen below this level); the members of
    an object are kept in document order. *)
#[warnings="-register-all"] Inductive json : Type :=
| JNull
| JBool (b : bool)
| JNum (literal : string)
| JStr (s : string)
| JArr (items : list json)
| JObj (members : list (string * json)).

(** A struct field written unconditionally, and one tagged [omitempty],
    which is left out when its Go value is empty (zero number, empty
    string, slice of length zero). *)
Definition field (name : string) (j : json) : list (string * json) :=
  [(name, j)].

Definition field_omitempty (name : string) (empty : bool) (j : json)
  : list (string * json) :=
  if empty then [] else [(name, j)].

Definition marshal_string (s : string) : json := JStr s.

Definition marshal_int (i : Z) : json := JNum (Itoa i).

(** A nil slice is written as null, any other slice as an array. *)
Definition marshal_slice {A} (f : A → json) (s : slice A) : json :=
  match s with
  | nil_slice => JNull
  | mk_slice l => JArr (map f l)
  end.

(** The names of the top-level members of a document, in order. *)
Definition top_level_keys (j : json) : list string :=
  match j with
  | JObj members => map fst members
  | _ => []
  end.

(** The value of the first member called [key]. *)
Definition member (key : string) (j : json) : option json :=
  match j with
  | JObj members => snd <$> find (fun kv => String.eqb (fst kv) key) members
  | _ => None
  end.

(** Case folding of a member name as the decoder compares it with an
    ASCII field name ([bytes.EqualFold]): ASCII letters are upper-cased,
    and the two non-ASCII letters that fold to ASCII ones, U+017F (long
    s, bytes C5 BF) and U+212A (Kelvin sign, bytes E2 84 AA), become 'S'
    and 'K'.  Every other byte is kept, and then is no ASCII letter. *)
Fixpoint foldName (s : string) : string :=
  match s with
  | EmptyString => ""
  | String c1 s1 =>
      let v := byte_val c1 in
      if (97 <=? v) && (v <=? 122) then String (byte_of (v - 32)) (foldName s1)
      else
        match s1 with
        | String c2 s2 =>
            if (v =? 197) && (byte_val c2 =? 191) then String "S" (foldName s2)
            else
              match s2 with
              | String c3 s3 =>
                  if (v =? 226) && (byte_val c2 =? 132) && (byte_val c3 =? 170)
                  then String "K" (foldName s3)
                  else String c1 (foldName s1)
              | EmptyString => String c1 (foldName s1)
              end
        | EmptyString => String c1 ""
        end
  end.

(** The field a member name selects among the tagged names of a struct:
    the field with exactly that name, else the first one equal to it up
    to case folding.  The result is the position of the field. *)
Fixpoint index_where (p : string → bool) (names : list string) : option nat :=
  match names with
  | [] => None
  | n :: rest => if p n then Some O else S <$> index_where p rest
  end.

Definition find_field (names : list string) (key : string) : option nat :=
  match index_where (String.eqb key) names with
  | Some i => Some i
  | None => index_where (fun n => String.eqb (foldName n) (foldName key)) names
  end.

(** Decoding into a [string]: a JSON string is stored; null and values of
    any other kind leave the field as it is (the latter with a type error
    recorded by the decoder). *)
Definition unmarshal_string (j : json) (old : string) : string :=
  match j with
  | JStr s => s
  | _ => old
  end.

(** Decoding into an [int]: a number whose literal [ParseInt] accepts is
    stored; anything else leaves the field as it is. *)
Definition unmarshal_int (j : json) (old : Z) : Z :=
  match j with
  | JNum lit => default old (ParseInt lit)
  | _ => old
  end.

(** Decoding an object into a struct: the members are taken in document
    order, each one stored through [set] into the field it selects. *)
Definition unmarshal_struct {A} (set : string → json → A → A) (j : json) (old : A) : A :=
  match j with
  | JObj members => fold_left (fun acc kv => set (fst kv) (snd kv) acc) members old
  | _ => old
  end.

(** Decoding into a pointer: null stores nil; any other value is decoded
    into the pointee, which is allocated at its zero value first when the
    pointer is nil. *)
Definition unmarshal_ptr {A} (zero : A) (f : json → A → A) (j : json) (old : option A)
  : option A :=
  match j with
  | JNull => None
  | _ => Some (f j (default zero old))
  end.

(** Emptiness of a Go value as the [omitempty] option tests it. *)
Definition empty_string (s : string) : bool := String.eqb s "".
Definition empty_int (i : Z) : bool := i =? 0.
Definition empty_slice {A} (s : slice A) : bool := len s =? 0.

(* ================================================================== *)
(** ** The resource paths of the specification *)

(** Instantiating a path template such as [/projects/{project}/wiki/index.json]:
    text outside braces is copied, [{name}] is replaced by [env name].
    [name] is the placeholder being read, if any. *)
Fixpoint expand_from (env : string → string) (name : option string) (t : string) : string :=
  match t with
  | EmptyString => ""
  | String c t' =>
      match name with
      | None =>
          if Ascii.eqb c "{" then expand_from env (Some "") t'
          else String c (expand_from env None t')
      | Some n =>
          if Ascii.eqb c "}" then env n +:+ expand_from env None t'
          else expand_from env (Some (n +:+ String c "")) t'
      end
  end.

Definition expand (env : string → string) (t : string) : string :=
  expand_from env None t.

(** The three resource templates of the HTTP surface. *)
Definition index_template : string := "/projects/{project}/wiki/index.json".
Definition page_template : string := "/projects/{project}/wiki/{title}.json".
Definition version_template : string := "/projects/{project}/wiki/{title}/{version}.json".

(** The placeholders bound to caller-supplied text. *)
Definition segments (project title version : string) (name : string) : string :=
  if String.eqb name "project" then project
  else if String.eqb name "title" then title
  else if String.eqb name "version" then version
  else "".

(* ================================================================== *)
(** ** Declarations of package redmine outside wikies.go *)

(** wikies.go refers to three types and one helper that the package
    declares in other files.  They are parameters of the development:
    the types, the zero value of [IDName], how encoding/json reads an
    [IDName] and a [*[]AttachmentObject] and writes an
    [AttachmentUploadObject], and [urlIncludes], which receives a pointer
    to the query parameters and here returns their new value. *)
Class Package : Type := {
  IDName : Type;
  AttachmentObject : Type;
  AttachmentUploadObject : Type;
  zero_IDName : IDName;
  unmarshal_IDName : json → IDName → IDName;
  unmarshal_Attachments :
    json → option (slice AttachmentObject) → option (slice AttachmentObject);
  marshal_AttachmentUploadObject : AttachmentUploadObject → json;
  urlIncludes : Values → slice string → Values
}.

(** *** A concrete package

    An instance of [Package] on which the development can be evaluated.
    Its records are shaped after the data model of the specification; the
    theorems below hold for every package and use this one only to
    exhibit concrete runs. *)

(** Modelled from the spec: [IDName], declared outside wikies.go; the
    author identity, an id and name pair. *)
Record ExampleIDName : Type := {
  ExampleIDName_ID : Z;
  ExampleIDName_Name : string
}.

(** Modelled from the spec: [AttachmentObject], declared outside
    wikies.go; an attachment record, of which the data model lists no
    field. *)
Inductive ExampleAttachment : Type := example_attachment.

(** Modelled from the spec: [AttachmentUploadObject], declared outside
    wikies.go; an attachment upload descriptor with its filename, content
    token and optional content type. *)
Record ExampleUpload : Type := {
  ExampleUpload_Filename : string;
  ExampleUpload_Token : string;
  ExampleUpload_ContentType : string
}.

(** The records are read and written under the member names of the
    remote API: [id] and [name]; [filename], [token] and [content_type]. *)
Definition set_ExampleIDName (key : string) (j : json) (a : ExampleIDName) : ExampleIDName :=
  match find_field ["id"; "name"] key with
  | Some 0%nat =>
      {| ExampleIDName_ID := unmarshal_int j (ExampleIDName_ID a);
         ExampleIDName_Name := ExampleIDName_Name a |}
  | Some 1%nat =>
      {| ExampleIDName_ID := ExampleIDName_ID a;
         ExampleIDName_Name := unmarshal_string j (ExampleIDName_Name a) |}
  | _ => a
  end.

Definition marshal_ExampleUpload (u : ExampleUpload) : json :=
  JObj (field "filename" (marshal_string (ExampleUpload_Filename u))
        ++ field "token" (marshal_string (ExampleUpload_Token u))
        ++ field_omitempty "content_type" (empty_string (ExampleUpload_ContentType u))
             (marshal_string (ExampleUpload_ContentType u))).

(** Attachment lists are read by length only, the records having no
    content here. *)
Definition unmarshal_ExampleAttachments (j : json) (old : option (slice ExampleAttachment))
  : option (slice ExampleAttachment) :=
  match j with
  | JNull => None
  | JArr items => Some (mk_slice (map (fun _ => example_attachment) items))
  | _ => Some (default nil_slice old)
  end.

Definition example_package : Package := {|
  IDName := ExampleIDName;
  AttachmentObject := ExampleAttachment;
  AttachmentUploadObject := ExampleUpload;
  zero_IDName := {| ExampleIDName_ID := 0; ExampleIDName_Name := "" |};
  unmarshal_IDName := unmarshal_struct set_ExampleIDName;
  unmarshal_Attachments := unmarshal_ExampleAttachments;
  marshal_AttachmentUploadObject := marshal_ExampleUpload;
  urlIncludes := urlIncludes_spec
|}.

(* ================================================================== *)
(** ** wikies.go *)

Section Wiki.

Context {pkg : Package}.

(** *** Structs

    Field [F] of struct [T] is the projection [T_F]. *)

(** [WikiParentObject]: [Title] is tagged [title]. *)
Record WikiParentObject : Type := {
  WikiParentObject_Title : string
}.

(** [WikiMultiObject], tags [title], [parent], [version], [created_on],
    [updated_on]. *)
Record WikiMultiObject : Type := {
  WikiMultiObject_Title : string;
  WikiMultiObject_Parent : option WikiParentObject;
  WikiMultiObject_Version : Z;
  WikiMultiObject_CreatedOn : string;
  WikiMultiObject_UpdatedOn : string
}.

(** [WikiObject], tags [title], [parent], [text], [version], [author],
    [comments], [created_on], [updated_on], [attachments]. *)
Record WikiObject : Type := {
  WikiObject_Title : string;
  WikiObject_Parent : option WikiParentObject;
  WikiObject_Text : string;
  WikiObject_Version : Z;
  WikiObject_Author : IDName;
  WikiObject_Comments : string;
  WikiObject_CreatedOn : string;
  WikiObject_UpdatedOn : string;
  WikiObject_Attachments : option (slice AttachmentObject)
}.

(** [WikiCreateObject], tags [text], [comments,omitempty],
    [uploads,omitempty]. *)
Record WikiCreateObject : Type := {
  WikiCreateObject_Text : string;
  WikiCreateObject_Comments : string;
  WikiCreateObject_Uploads : slice AttachmentUploadObject
}.

(** [WikiUpdateObject], tags [text], [comments,omitempty],
    [version,omitempty], [uploads,omitempty]. *)
Record WikiUpdateObject : Type := {
  WikiUpdateObject_Text : string;
  WikiUpdateObject_Comments : string;
  WikiUpdateObject_Version : Z;
  WikiUpdateObject_Uploads : slice AttachmentUploadObject
}.

Record WikiSingleGetRequest : Type := {
  Includes : slice string
}.

(** [wikiAllResult]: [WikiPages] is tagged [wiki_pages]. *)
Record wikiAllResult : Type := {
  wikiAllResult_WikiPages : slice WikiMultiObject
}.

(** [wikiSingleResult]: [WikiPage] is tagged [wiki_page]. *)
Record wikiSingleResult : Type := {
  wikiSingleResult_WikiPage : WikiObject
}.

(** [wikiCreate]: [WikiPage] is tagged [wiki_page]. *)
Record wikiCreate : Type := {
  wikiCreate_WikiPage : WikiCreateObject
}.

(** [wikiUpdate]: [WikiPage] is tagged [wiki_page]. *)
Record wikiUpdate : Type := {
  wikiUpdate_WikiPage : WikiUpdateObject
}.

(** Zero values, as [var w T] declares them. *)
Definition zero_WikiParentObject : WikiParentObject :=
  {| WikiParentObject_Title := "" |}.

Definition zero_WikiObject : WikiObject := {|
  WikiObject_Title := "";
  WikiObject_Parent := None;
  WikiObject_Text := "";
  WikiObject_Version := 0;
  WikiObject_Author := zero_IDName;
  WikiObject_Comments := "";
  WikiObject_CreatedOn := "";
  WikiObject_UpdatedOn := "";
  WikiObject_Attachments := None
|}.

Definition zero_wikiAllResult : wikiAllResult :=
  {| wikiAllResult_WikiPages := nil_slice |}.

Definition zero_wikiSingleResult : wikiSingleResult :=
  {| wikiSingleResult_WikiPage := zero_WikiObject |}.

(** *** Request bodies as encoding/json writes them *)

Definition marshal_WikiCreateObject (o : WikiCreateObject) : json :=
  JObj (field "text" (marshal_string (WikiCreateObject_Text o))
        ++ field_omitempty "comments" (empty_string (WikiCreateObject_Comments o))
             (marshal_string (WikiCreateObject_Comments o))
        ++ field_omitempty "uploads" (empty_slice (WikiCreateObject_Uploads o))
             (marshal_slice marshal_AttachmentUploadObject (WikiCreateObject_Uploads o))).

Definition marshal_WikiUpdateObject (o : WikiUpdateObject) : json :=
  JObj (field "text" (marshal_string (WikiUpdateObject_Text o))
        ++ field_omitempty "comments" (empty_string (WikiUpdateObject_Comments o))
             (marshal_string (WikiUpdateObject_Comments o))
        ++ field_omitempty "version" (empty_int (WikiUpdateObject_Version o))
             (marshal_int (WikiUpdateObject_Version o))
        ++ field_omitempty "uploads" (empty_slice (WikiUpdateObject_Uploads o))
             (marshal_slice marshal_AttachmentUploadObject (WikiUpdateObject_Uploads o))).

Definition marshal_wikiCreate (b : wikiCreate) : json :=
  JObj (field "wiki_page" (marshal_WikiCreateObject (wikiCreate_WikiPage b))).

Definition marshal_wikiUpdate (b : wikiUpdate) : json :=
  JObj (field "wiki_page" (marshal_WikiUpdateObject (wikiUpdate_WikiPage b))).

(** *** Response bodies as encoding/json reads them *)

Definition set_WikiParentObject (key : string) (j : json) (p : WikiParentObject)
  : WikiParentObject :=
  match find_field ["title"] key with
  | Some 0%nat => {| WikiParentObject_Title := unmarshal_string j (WikiParentObject_Title p) |}
  | _ => p
  end.

Definition unmarshal_WikiParentObject : json → WikiParentObject → WikiParentObject :=
  unmarshal_struct set_WikiParentObject.

(** The tags of [WikiObject] in declaration order. *)
Definition WikiObject_tags : list string :=
  ["title"; "parent"; "text"; "version"; "author"; "comments";
   "created_on"; "updated_on"; "attachments"].

(** Storing one member of a [wiki_page] object into the field it selects. *)
Definition set_WikiObject (key : string) (j : json) (w : WikiObject) : WikiObject :=
  let title := WikiObject_Title w in
  let parent := WikiObject_Parent w in
  let text := WikiObject_Text w in
  let version := WikiObject_Version w in
  let author := WikiObject_Author w in
  let comments := WikiObject_Comments w in
  let created := WikiObject_CreatedOn w in
  let updated := WikiObject_UpdatedOn w in
  let attachments := WikiObject_Attachments w in
  let build t p x v a c cr up at_ := {|
    WikiObject_Title := t; WikiObject_Parent := p; WikiObject_Text := x;
    WikiObject_Version := v; WikiObject_Author := a; WikiObject_Comments := c;
    WikiObject_CreatedOn := cr; WikiObject_UpdatedOn := up;
    WikiObject_Attachments := at_ |} in
  match find_field WikiObject_tags key with
  | Some 0%nat =>
      build (unmarshal_string j title) parent text version author comments created updated attachments
  | Some 1%nat =>
      build title (unmarshal_ptr zero_WikiParentObject unmarshal_WikiParentObject j parent)
        text version author comments created updated attachments
  | Some 2%nat =>
      build title parent (unmarshal_string j text) version author comments created updated attachments
  | Some 3%nat =>
      build title parent text (unmarshal_int j version) author comments created updated attachments
  | Some 4%nat =>
      build title parent text version (unmarshal_IDName j author) comments created updated attachments
  | Some 5%nat =>
      build title parent text version author (unmarshal_string j comments) created updated attachments
  | Some 6%nat =>
      build title parent text version author comments (unmarshal_string j created) updated attachments
  | Some 7%nat =>
      build title parent text version author comments created (unmarshal_string j updated) attachments
  | Some 8%nat =>
      build title parent text version author comments created updated (unmarshal_Attachments j attachments)
  | _ => w
  end.

Definition unmarshal_WikiObject : json → WikiObject → WikiObject :=
  unmarshal_struct set_WikiObject.

Definition set_wikiSingleResult (key : string) (j : json) (r : wikiSingleResult)
  : wikiSingleResult :=
  match find_field ["wiki_page"] key with
  | Some 0%nat =>
      {| wikiSingleResult_WikiPage := unmarshal_WikiObject j (wikiSingleResult_WikiPage r) |}
  | _ => r
  end.

(** What [json.Unmarshal(body, &w)] leaves in [w : wikiSingleResult]. *)
Definition unmarshal_wikiSingleResult : json → wikiSingleResult → wikiSingleResult :=
  unmarshal_struct set_wikiSingleResult.

(** *** The transport

    The [in] argument of [Put] and [Del] is an [interface{}]; wikies.go
    passes nil or one of its two request wrappers. *)
Inductive in_value : Type :=
| in_nil
| in_wikiCreate (b : wikiCreate)
| in_wikiUpdate (b : wikiUpdate).

(** The request body a transport writes for an [in] argument: none for
    nil, else the JSON encoding of the value. *)
Definition request_body (v : in_value) : option json :=
  match v with
  | in_nil => None
  | in_wikiCreate b => Some (marshal_wikiCreate b)
  | in_wikiUpdate b => Some (marshal_wikiUpdate b)
  end.

(** The [out] argument is nil or the address of a local result struct.
    An address is modelled by what it points to: the kind of struct and
    its contents at the time of the call. *)
Inductive target : Type := no_target | all_target | single_target.

Definition pointee (t : target) : Type :=
  match t with
  | no_target => unit
  | all_target => wikiAllResult
  | single_target => wikiSingleResult
  end.

Record out_pointer : Type := addr {
  out_target : target;
  out_contents : pointee out_target
}.

Definition out_nil : out_pointer := addr no_target tt.

(** A call of one of the transport methods of [*Context], with its
    arguments in source order. *)
Inductive request : Type :=
| Get (out : out_pointer) (uri : URL) (statusExpected : Z)
| Put (in_ : in_value) (out : out_pointer) (uri : URL) (statusExpected : Z)
| Del (in_ : in_value) (out : out_pointer) (uri : URL) (statusExpected : Z).

Definition request_out (c : request) : out_pointer :=
  match c with
  | Get out _ _ | Put _ out _ _ | Del _ out _ _ => out
  end.

Definition request_in (c : request) : in_value :=
  match c with
  | Get _ _ _ => in_nil
  | Put v _ _ _ | Del v _ _ _ => v
  end.

Definition request_uri (c : request) : URL :=
  match c with
  | Get _ u _ | Put _ _ u _ | Del _ _ u _ => u
  end.

Definition request_statusExpected (c : request) : Z :=
  match c with
  | Get _ _ s | Put _ _ _ s | Del _ _ _ s => s
  end.

(** What a transport call gives back: the contents of the struct behind
    [out] after the call, and the two results [(int, error)]. *)
Record response (t : target) : Type := {
  filled : pointee t;
  status : Z;
  err : error
}.
Arguments filled {t}.
Arguments status {t}.
Arguments err {t}.

(** A program over the transport: it returns, or makes a call and goes on
    with the response. *)
Inductive Transport (A : Type) : Type :=
| Ret (a : A)
| Call (c : request) (k : response (out_target (request_out c)) → Transport A).
Arguments Ret {A} a.
Arguments Call {A} c k.

(** A transport, the receiver [r *Context]: it answers every call, and
    may keep state of its own (the connection, the server) in [W]. *)
Definition RContext (W : Type) : Type :=
  ∀ c : request, W → W * response (out_target (request_out c)).

(** One entry of the call log: the call and its response. *)
Record event : Type := {
  event_request : request;
  event_response : response (out_target (request_out event_request))
}.

(** Running a program against a transport: the final transport state,
    the calls made in order, and the returned value. *)
Fixpoint run {W A} (r : RContext W) (p : Transport A) (w : W) : W * list event * A :=
  match p with
  | Ret a => (w, [], a)
  | Call c k =>
      let '(w1, rep) := r c w in
      let '(w2, log, a) := run r (k rep) w1 in
      (w2, {| event_request := c; event_response := rep |} :: log, a)
  end.

Definition trace {W A} (r : RContext W) (p : Transport A) (w : W) : list event :=
  snd (fst (run r p w)).

Definition result {W A} (r : RContext W) (p : Transport A) (w : W) : A :=
  snd (run r p w).

(** The struct behind [out] after a call, packed like the argument. *)
Definition event_filled (e : event) : out_pointer :=
  addr (out_target (request_out (event_request e))) (filled (event_response e)).

(** The [(int, error)] pair a call returned. *)
Definition event_outcome (e : event) : Z * error :=
  (status (event_response e), err (event_response e)).

(** *** The six operations

    Each returns the values of its Go result list as a tuple.  Go's [+] on
    strings associates to the left, and so do the paths below. *)

Definition WikiAllGet (projectID : string)
  : Transport (slice WikiMultiObject * Z * error) :=
  let w := zero_wikiAllResult in
  let ur := {| Path := ("/projects/" +:+ projectID) +:+ "/wiki/index.json";
               RawQuery := ""; ForceQuery := false |} in
  Call (Get (addr all_target w) ur StatusOK) (fun rep =>
  Ret (wikiAllResult_WikiPages (filled rep), status rep, err rep)).

Definition WikiSingleGet (projectID wikiTitle : string) (request : WikiSingleGetRequest)
  : Transport (WikiObject * Z * error) :=
  let w := zero_wikiSingleResult in
  let urlParams : Values := ∅ in
  let urlParams := urlIncludes urlParams (Includes request) in
  let ur := {| Path := ((("/projects/" +:+ projectID) +:+ "/wiki/") +:+ wikiTitle) +:+ ".json";
               RawQuery := Values_Encode urlParams; ForceQuery := false |} in
  Call (Get (addr single_target w) ur StatusOK) (fun rep =>
  Ret (wikiSingleResult_WikiPage (filled rep), status rep, err rep)).

Definition WikiSingleVersionGet (projectID wikiTitle : string) (version : Z)
    (request : WikiSingleGetRequest)
  : Transport (WikiObject * Z * error) :=
  let w := zero_wikiSingleResult in
  let urlParams : Values := ∅ in
  let urlParams := urlIncludes urlParams (Includes request) in
  let ur := {| Path := ((((("/projects/" +:+ projectID) +:+ "/wiki/") +:+ wikiTitle) +:+ "/")
                          +:+ Itoa version) +:+ ".json";
               RawQuery := Values_Encode urlParams; ForceQuery := false |} in
  Call (Get (addr single_target w) ur StatusOK) (fun rep =>
  Ret (wikiSingleResult_WikiPage (filled rep), status rep, err rep)).

Definition WikiCreate (projectID wikiTitle : string) (wiki : WikiCreateObject)
  : Transport (WikiObject * Z * error) :=
  let w := zero_wikiSingleResult in
  let ur := {| Path := ((("/projects/" +:+ projectID) +:+ "/wiki/") +:+ wikiTitle) +:+ ".json";
               RawQuery := ""; ForceQuery := false |} in
  Call (Put (in_wikiCreate {| wikiCreate_WikiPage := wiki |}) (addr single_target w) ur
          StatusCreated) (fun rep =>
  Ret (wikiSingleResult_WikiPage (filled rep), status rep, err rep)).

Definition WikiUpdate (projectID wikiTitle : string) (wiki : WikiUpdateObject)
  : Transport (Z * error) :=
  let ur := {| Path := ((("/projects/" +:+ projectID) +:+ "/wiki/") +:+ wikiTitle) +:+ ".json";
               RawQuery := ""; ForceQuery := false |} in
  Call (Put (in_wikiUpdate {| wikiUpdate_WikiPage := wiki |}) out_nil ur StatusNoContent)
    (fun rep =>
  Ret (status rep, err rep)).

Definition WikiDelete (projectID wikiTitle : string) : Transport (Z * error) :=
  let ur := {| Path := ((("/projects/" +:+ projectID) +:+ "/wiki/") +:+ wikiTitle) +:+ ".json";
               RawQuery := ""; ForceQuery := false |} in
  Call (Del in_nil out_nil ur StatusNoContent) (fun rep =>
  Ret (status rep, err rep)).

(** The [(int, error)] part of a three-valued result. *)
Definition status_error {A} (res : A * Z * error) : Z * error :=
  (snd (fst res), snd res).

Definition value_of {A} (res : A * Z * error) : A := fst (fst res).

(** *** The operations table of the specification *)

Inductive operation : Type :=
| ListPages | GetPage | GetPageVersion | CreatePage | UpdatePage | DeletePage.

Inductive verb : Type := GET | PUT | DELETE.

Inductive output : Type := PageSummaries | Page | NoOutput.

(** Verb, success status and output of each row. *)
Definition operations_table (op : operation) : verb * Z * output :=
  match op with
  | ListPages => (GET, 200, PageSummaries)
  | GetPage => (GET, 200, Page)
  | GetPageVersion => (GET, 200, Page)
  | CreatePage => (PUT, 201, Page)
  | UpdatePage => (PUT, 204, NoOutput)
  | DeletePage => (DELETE, 204, NoOutput)
  end.

(** The verb a transport method stands for, and the output a call can
    decode: what its [out] argument points to. *)
Definition request_verb (c : request) : verb :=
  match c with
  | Get _ _ _ => GET
  | Put _ _ _ _ => PUT
  | Del _ _ _ _ => DELETE
  end.

Definition target_output (t : target) : output :=
  match t with
  | no_target => NoOutput
  | all_target => PageSummaries
  | single_target => Page
  end.

Definition call_profile (e : event) : verb * Z * output :=
  let c := event_request e in
  (request_verb c, request_statusExpected c, target_output (out_target (request_out c))).

(** *** Transports to run the operations against *)

(** A transport that answers every call with the same status and error
    and decodes nothing: the struct behind [out] stays as it was. *)
Definition constant_transport (st : Z) (e : error) : RContext unit :=
  fun c w =>
    (w, {| filled := out_contents (request_out c); status := st; err := e |}).

(** A transport that receives [body] on every call and decodes it into a
    [wikiSingleResult] behind [out], leaving any other [out] as it is; it
    answers with [st] and [e]. *)
Definition decoding_transport (body : json) (st : Z) (e : error) : RContext unit :=
  fun c w =>
    (w, {| filled :=
             match request_out c as o return pointee (out_target o) with
             | addr single_target contents => unmarshal_wikiSingleResult body contents
             | addr _ contents => contents
             end;
           status := st; err := e |}).

(** A transport that decodes fixed values: [pages] into a
    [wikiAllResult], [page] into a [wikiSingleResult]. *)
Definition scripted_transport (pages : slice WikiMultiObject) (page : WikiObject)
    (st : Z) (e : error) : RContext unit :=
  fun c w =>
    (w, {| filled :=
             match request_out c as o return pointee (out_target o) with
             | addr all_target _ => {| wikiAllResult_WikiPages := pages |}
             | addr single_target _ => {| wikiSingleResult_WikiPage := page |}
             | addr no_target contents => contents
             end;
           status := st; err := e |}).

(** *** Reading the call log *)

(** The struct behind [out] once [body] has been decoded into it, for
    the address of a [wikiSingleResult]; a nil [out] and the address of
    a page list are left as they are. *)
Definition decode_into (body : json) (o : out_pointer) : out_pointer :=
  match o with
  | addr single_target contents =>
      addr single_target (unmarshal_wikiSingleResult body contents)
  | _ => o
  end.

(** The page, or the page list, of the struct behind a pointer. *)
Definition pointer_page (o : out_pointer) : option WikiObject :=
  match o with
  | addr single_target contents => Some (wikiSingleResult_WikiPage contents)
  | _ => None
  end.

Definition pointer_pages (o : out_pointer) : option (slice WikiMultiObject) :=
  match o with
  | addr all_target contents => Some (wikiAllResult_WikiPages contents)
  | _ => None
  end.

(** The [(int, error)] pairs the transport returned during a run. *)
Definition outcomes {W A} (r : RContext W) (p : Transport A) (w : W)
  : list (Z * error) :=
  map event_outcome (trace r p w).

(** The transport filled the struct behind [out] of every call of a run
    by decoding [body] into it. *)
Definition fills_from {W A} (body : json) (r : RContext W) (p : Transport A) (w : W)
  : Prop :=
  map event_filled (trace r p w)
  = map (fun ev => decode_into body (request_out (event_request ev))) (trace r p w).

(** The transport left the struct behind [out] of every call of a run as
    it was passed: nothing was decoded. *)
Definition leaves_untouched {W A} (r : RContext W) (p : Transport A) (w : W) : Prop :=
  map event_filled (trace r p w)
  = map (fun ev => request_out (event_request ev)) (trace r p w).

(** Every transport call of a run returned a non-nil error. *)
Definition all_calls_fail {W A} (r : RContext W) (p : Transport A) (w : W) : Prop :=
  Forall (fun out => snd out ≠ None) (outcomes r p w).

(** The raw query a logged call was made with. *)
Definition request_query (ev : event) : string :=
  RawQuery (request_uri (event_request ev)).

(** The request bodies written during a run, one per call ([None] for a
    call without body). *)
Definition sent_bodies {W A} (r : RContext W) (p : Transport A) (w : W)
  : list (option json) :=
  map (fun ev => request_body (request_in (event_request ev))) (trace r p w).

(** Whether member name [key] selects one of the fields [title], [text]
    or [version] of [WikiObject]. *)
Definition selects_title_text_version (key : string) : bool :=
  match find_field WikiObject_tags key with
  | Some 0%nat | Some 2%nat | Some 3%nat => true
  | _ => false
  end.

(** The path a logged call was made with. *)
Definition request_path (ev : event) : string :=
  Path (request_uri (event_request ev)).

(** *** Further readings of calls, paths and bodies *)

(** The calls of a run, in order. *)
Definition requests {W A} (r : RContext W) (p : Transport A) (w : W) : list request :=
  map event_request (trace r p w).

(** What a call asks of the server: the verb, the URL and the encoded
    request body.  The expected status and [out] stay on the client. *)
Definition sent_request (c : request) : verb * URL * option json :=
  (request_verb c, request_uri c, request_body (request_in c)).

(** Whether byte [c] occurs in [s], and whether every byte of [s]
    satisfies [p]. *)
Fixpoint has_byte (c : ascii) (s : string) : bool :=
  match s with
  | EmptyString => false
  | String x s' => Ascii.eqb x c || has_byte c s'
  end.

Fixpoint all_bytes (p : ascii → bool) (s : string) : bool :=
  match s with
  | EmptyString => true
  | String x s' => p x && all_bytes p s'
  end.

(** A string without the path separator. *)
Definition slash_free (s : string) : Prop := has_byte "/" s = false.

(** A decimal digit, and a decimal digit or the minus sign. *)
Definition is_digit (c : ascii) : bool :=
  (48 <=? byte_val c) && (byte_val c <=? 57).

Definition is_digit_or_minus (c : ascii) : bool :=
  is_digit c || (byte_val c =? 45).




(** The fields of [WikiObject] the members of an object select, in
    document order; members that select none are left out. *)
Definition selected_fields (members : list (string * json)) : list nat :=
  omap (fun kv => find_field WikiObject_tags (fst kv)) members.

(** Whether a response body has no member that selects [WikiPage] of
    [wikiSingleResult]: any body that is not an object, and an object
    none of whose member names is [wiki_page] up to case. *)
Definition lacks_wiki_page (body : json) : bool :=
  match body with
  | JObj members =>
      forallb (fun kv => match find_field ["wiki_page"] (fst kv) with
                         | Some _ => false
                         | None => true
                         end) members
  | _ => true
  end.

(** *** Strings on the wire

    encoding/json writes a Go string coerced to valid UTF-8: each byte
    that starts no valid encoding is written as the escape of U+FFFD,
    which a decoder reads as the bytes EF BF BD.  What starts a valid
    encoding is decided as unicode/utf8 does. *)










End Wiki.

Arguments filled {pkg t}.
Arguments status {pkg t}.
Arguments err {pkg t}.
Arguments Ret {pkg A} a.
Arguments Call {pkg A} c k.

(* ================================================================== *)
(** ** Concrete inputs

    The scenario of the specification over [example_package]: the page
    "Home" of project "demo", created with the text "Hello". *)

Definition home_create : WikiCreateObject (pkg := example_package) := {|
  WikiCreateObject_Text := "Hello";
  WikiCreateObject_Comments := "";
  WikiCreateObject_Uploads := nil_slice
|}.

Definition home_update : WikiUpdateObject (pkg := example_package) := {|
  WikiUpdateObject_Text := "Hello";
  WikiUpdateObject_Comments := "";
  WikiUpdateObject_Version := 2;
  WikiUpdateObject_Uploads := nil_slice
|}.

(** The members that follow [title], [text] and [version] in the
    response, and the response body. *)
Definition home_rest : list (string * json) :=
  [("author", JObj [("id", JNum "5"); ("name", JStr "admin")]);
   ("comments", JStr "")].

Definition home_body : json :=
  JObj [("wiki_page",
         JObj (("title", JStr "Home") :: ("text", JStr "Hello")
               :: ("version", JNum "1") :: home_rest))].

(** A request for the attachments of a page. *)
Definition with_attachments : WikiSingleGetRequest :=
  {| Includes := mk_slice ["attachments"] |}.

(** A transport whose every call fails before anything is decoded. *)
Definition refusing_transport : RContext (pkg := example_package) unit :=
  constant_transport 0 (Some "connection refused").

(** The body of an error response of the remote API, which has no
    [wiki_page] member. *)
Definition errors_body : json :=
  JObj [("errors", JArr [JStr "Text cannot be blank"])].

(** The members of the page of the scenario, and the same members in
    reverse order. *)
Definition home_members : list (string * json) :=
  ("title", JStr "Home") :: ("text", JStr "Hello") :: ("version", JNum "1") :: home_rest.

Definition home_members_reversed : list (string * json) := rev home_members.

(* ================================================================== *)
(** ** Properties *)

Section WikiProperties.

Context {pkg : Package}.

(** *** The library models on small inputs *)

Example Itoa_examples :
  Itoa 0 = "0" ∧ Itoa 7 = "7" ∧ Itoa 10 = "10" ∧ Itoa 1234567890 = "1234567890"
  ∧ Itoa (-45) = "-45" ∧ Itoa int_min = "-9223372036854775808".
Proof. repeat split; reflexivity. Qed.

Example ParseInt_examples :
  ParseInt "12" = Some 12 ∧ ParseInt "-0" = Some 0 ∧ ParseInt "" = None
  ∧ ParseInt "-" = None ∧ ParseInt "1.0" = None
  ∧ ParseInt "9223372036854775808" = None
  ∧ ParseInt "-9223372036854775808" = Some int_min.
Proof. repeat split; reflexivity. Qed.

Example QueryEscape_example :
  QueryEscape "a b,c/d?e~f_g-h.i%zZ09" = "a+b%2Cc%2Fd%3Fe~f_g-h.i%25zZ09".
Proof. reflexivity. Qed.

(** Keys are written in sorted order, the values of a key in the order
    they were added. *)
Example Values_Encode_example :
  Values_Encode (Values_Add (Values_Add (Values_Add ∅ "b" "1") "a" "2") "b" "3")
  = "a=2&b=1&b=3".
Proof. reflexivity. Qed.

Example urlIncludes_spec_examples :
  Values_Encode (urlIncludes_spec ∅ (mk_slice ["attachments"; "x y"]))
    = "include=attachments%2Cx+y"
  ∧ Values_Encode (urlIncludes_spec ∅ nil_slice) = "".
Proof. split; reflexivity. Qed.

(** Member names select fields up to case, and the long s (bytes 197,
    191) folds to an ASCII s. *)
Example find_field_examples :
  find_field WikiObject_tags "Title" = Some 0%nat
  ∧ find_field WikiObject_tags "WIKI_PAGE" = None
  ∧ find_field WikiObject_tags
      ("ver" +:+ String (byte_of 197) (String (byte_of 191) "ion")) = Some 3%nat
  ∧ find_field WikiObject_tags "Created_On" = Some 6%nat.
Proof. repeat split; reflexivity. Qed.

Example expand_example :
  expand (segments "demo" "Home" "3") version_template = "/projects/demo/wiki/Home/3.json".
Proof. reflexivity. Qed.

(** *** Running an operation *)

(** A program that makes one call and returns a function of the response
    logs exactly that call. *)
Lemma run_one_call {W A} (r : RContext W) (c : request)
    (k : response (out_target (request_out c)) → A) (w : W) :
  run r (Call c (fun rep => Ret (k rep))) w
  = (fst (r c w),
     [{| event_request := c; event_response := snd (r c w) |}],
     k (snd (r c w))).
Proof. simpl. destruct (r c w) as [w1 rep]. reflexivity. Qed.

Lemma trace_one_call {W A} (r : RContext W) (c : request)
    (k : response (out_target (request_out c)) → A) (w : W) :
  trace r (Call c (fun rep => Ret (k rep))) w
  = [{| event_request := c; event_response := snd (r c w) |}].
Proof. unfold trace. rewrite run_one_call. reflexivity. Qed.

Lemma result_one_call {W A} (r : RContext W) (c : request)
    (k : response (out_target (request_out c)) → A) (w : W) :
  result r (Call c (fun rep => Ret (k rep))) w = k (snd (r c w)).
Proof. unfold result. rewrite run_one_call. reflexivity. Qed.

Lemma singleton_eq {A} (a b : A) : [a] = [b] → a = b.
Proof. intros H. congruence. Qed.

Ltac run_operation :=
  unfold WikiAllGet, WikiSingleGet, WikiSingleVersionGet, WikiCreate, WikiUpdate,
    WikiDelete;
  rewrite ?trace_one_call, ?result_one_call.

(** C1. Each of the six operations hands back the status code and the
    error of its transport call unchanged, whatever the transport
    answers: the pairs the transport returned during the operation are
    exactly the one pair the operation returns.  No status is turned
    into an error: against a transport that answers status [st] with
    error [e] and touches nothing, [WikiDelete] returns [(st, e)], so
    [(500, nil)] for status 500 and the nil error. *)
Theorem wiki_status_error_pass_through :
  ∀ (W : Type) (r : RContext W) (w : W) (projectID wikiTitle : string) (version : Z)
    (request : WikiSingleGetRequest) (create : WikiCreateObject)
    (update : WikiUpdateObject) (st : Z) (e : error),
    map event_outcome (trace r (WikiAllGet projectID) w)
      = [status_error (result r (WikiAllGet projectID) w)]
    ∧ map event_outcome (trace r (WikiSingleGet projectID wikiTitle request) w)
      = [status_error (result r (WikiSingleGet projectID wikiTitle request) w)]
    ∧ map event_outcome (trace r (WikiSingleVersionGet projectID wikiTitle version request) w)
      = [status_error (result r (WikiSingleVersionGet projectID wikiTitle version request) w)]
    ∧ map event_outcome (trace r (WikiCreate projectID wikiTitle create) w)
      = [status_error (result r (WikiCreate projectID wikiTitle create) w)]
    ∧ map event_outcome (trace r (WikiUpdate projectID wikiTitle update) w)
      = [result r (WikiUpdate projectID wikiTitle update) w]
    ∧ map event_outcome (trace r (WikiDelete projectID wikiTitle) w)
      = [result r (WikiDelete projectID wikiTitle) w]
    ∧ result (constant_transport st e) (WikiDelete projectID wikiTitle) tt = (st, e)
    ∧ result (constant_transport 500 None) (WikiDelete projectID wikiTitle) tt = (500, None).
Proof.
  intros. repeat split; run_operation; reflexivity.
Qed.

(** C2. Each operation makes exactly one transport call, with the verb,
    the expected success status and the output of its row in the
    operations table; update and delete pass a nil [out], so nothing is
    decoded for them, and return only the status and the error. *)
Theorem wiki_one_call_per_table_row :
  ∀ (W : Type) (r : RContext W) (w : W) (projectID wikiTitle : string) (version : Z)
    (request : WikiSingleGetRequest) (create : WikiCreateObject)
    (update : WikiUpdateObject),
    map call_profile (trace r (WikiAllGet projectID) w) = [operations_table ListPages]
    ∧ map call_profile (trace r (WikiSingleGet projectID wikiTitle request) w)
      = [operations_table GetPage]
    ∧ map call_profile (trace r (WikiSingleVersionGet projectID wikiTitle version request) w)
      = [operations_table GetPageVersion]
    ∧ map call_profile (trace r (WikiCreate projectID wikiTitle create) w)
      = [operations_table CreatePage]
    ∧ map call_profile (trace r (WikiUpdate projectID wikiTitle update) w)
      = [operations_table UpdatePage]
    ∧ map call_profile (trace r (WikiDelete projectID wikiTitle) w)
      = [operations_table DeletePage]
    ∧ map (fun ev => request_out (event_request ev))
        (trace r (WikiUpdate projectID wikiTitle update) w) = [out_nil]
    ∧ map (fun ev => request_out (event_request ev))
        (trace r (WikiDelete projectID wikiTitle) w) = [out_nil].
Proof.
  intros. repeat split; run_operation; reflexivity.
Qed.

(** *** Resource paths *)

Lemma append_assoc (a b c : string) : (a +:+ b) +:+ c = a +:+ (b +:+ c).
Proof.
  induction a as [|x a IH]; [reflexivity|].
  change (String x ((a +:+ b) +:+ c) = String x (a +:+ (b +:+ c))).
  now rewrite IH.
Qed.

(** C3. Whatever the project identifier and the title are, every
    operation passes as path the template of its endpoint with the
    caller's text put in place of the placeholders byte for byte, which
    is the plain concatenation of the fixed parts and the caller's text:
    nothing is escaped or percent-encoded on the way. *)
Theorem wiki_paths_verbatim :
  ∀ (W : Type) (r : RContext W) (w : W) (projectID wikiTitle : string) (version : Z)
    (request : WikiSingleGetRequest) (create : WikiCreateObject)
    (update : WikiUpdateObject),
    let env := segments projectID wikiTitle (Itoa version) in
    map request_path (trace r (WikiAllGet projectID) w) = [expand env index_template]
    ∧ map request_path (trace r (WikiSingleGet projectID wikiTitle request) w)
      = [expand env page_template]
    ∧ map request_path (trace r (WikiSingleVersionGet projectID wikiTitle version request) w)
      = [expand env version_template]
    ∧ map request_path (trace r (WikiCreate projectID wikiTitle create) w)
      = [expand env page_template]
    ∧ map request_path (trace r (WikiUpdate projectID wikiTitle update) w)
      = [expand env page_template]
    ∧ map request_path (trace r (WikiDelete projectID wikiTitle) w)
      = [expand env page_template]
    ∧ expand env index_template = "/projects/" +:+ projectID +:+ "/wiki/index.json"
    ∧ expand env page_template
      = "/projects/" +:+ projectID +:+ "/wiki/" +:+ wikiTitle +:+ ".json"
    ∧ expand env version_template
      = "/projects/" +:+ projectID +:+ "/wiki/" +:+ wikiTitle +:+ "/"
        +:+ Itoa version +:+ ".json".
Proof.
  intros. subst env.
  repeat split; try reflexivity; run_operation; unfold request_path; simpl map; f_equal;
    cbn [request_uri event_request Path]; rewrite !append_assoc; reflexivity.
Qed.

(** *** Request bodies *)

(** C4 (amended). The body [WikiCreate] sends is an object with the one
    member [wiki_page], whose value holds [text], then [comments] and
    [uploads] when they are not empty; the body [WikiUpdate] sends is an
    object with the one member [wiki_page], whose value holds [text],
    then [comments], [version] and [uploads] when they are not empty.
    The listed fields are members of [wiki_page], not of the body. *)
Theorem wiki_request_bodies_wrapped :
  ∀ (W : Type) (r : RContext W) (w : W) (projectID wikiTitle : string)
    (create : WikiCreateObject) (update : WikiUpdateObject),
    sent_bodies r (WikiCreate projectID wikiTitle create) w
      = [Some (JObj [("wiki_page",
           JObj (("text", JStr (WikiCreateObject_Text create))
                 :: (if String.eqb (WikiCreateObject_Comments create) "" then []
                     else [("comments", JStr (WikiCreateObject_Comments create))])
                 ++ (if len (WikiCreateObject_Uploads create) =? 0 then []
                     else [("uploads",
                            marshal_slice marshal_AttachmentUploadObject
                              (WikiCreateObject_Uploads create))])))])]
    ∧ sent_bodies r (WikiUpdate projectID wikiTitle update) w
      = [Some (JObj [("wiki_page",
           JObj (("text", JStr (WikiUpdateObject_Text update))
                 :: (if String.eqb (WikiUpdateObject_Comments update) "" then []
                     else [("comments", JStr (WikiUpdateObject_Comments update))])
                 ++ (if WikiUpdateObject_Version update =? 0 then []
                     else [("version", JNum (Itoa (WikiUpdateObject_Version update)))])
                 ++ (if len (WikiUpdateObject_Uploads update) =? 0 then []
                     else [("uploads",
                            marshal_slice marshal_AttachmentUploadObject
                              (WikiUpdateObject_Uploads update))])))])].
Proof.
  intros. unfold sent_bodies. split; run_operation; reflexivity.
Qed.

(** The page object of an update body, member by member. *)
Lemma update_page_members (o : WikiUpdateObject) :
  let page := marshal_WikiUpdateObject o in
  member "text" page = Some (JStr (WikiUpdateObject_Text o))
  ∧ member "comments" page
    = (if String.eqb (WikiUpdateObject_Comments o) "" then None
       else Some (JStr (WikiUpdateObject_Comments o)))
  ∧ member "version" page
    = (if WikiUpdateObject_Version o =? 0 then None
       else Some (JNum (Itoa (WikiUpdateObject_Version o))))
  ∧ member "uploads" page
    = match WikiUpdateObject_Uploads o with
      | nil_slice | mk_slice [] => None
      | mk_slice l => Some (JArr (map marshal_AttachmentUploadObject l))
      end.
Proof.
  destruct o as [text comments version uploads].
  unfold marshal_WikiUpdateObject, empty_string, empty_int, empty_slice; cbn [member
    WikiUpdateObject_Text WikiUpdateObject_Comments WikiUpdateObject_Version
    WikiUpdateObject_Uploads].
  destruct (String.eqb comments ""), (version =? 0), uploads as [|[|u l]];
    repeat split; reflexivity.
Qed.

Lemma create_page_members (o : WikiCreateObject) :
  let page := marshal_WikiCreateObject o in
  member "text" page = Some (JStr (WikiCreateObject_Text o))
  ∧ member "comments" page
    = (if String.eqb (WikiCreateObject_Comments o) "" then None
       else Some (JStr (WikiCreateObject_Comments o)))
  ∧ member "version" page = None
  ∧ member "uploads" page
    = match WikiCreateObject_Uploads o with
      | nil_slice | mk_slice [] => None
      | mk_slice l => Some (JArr (map marshal_AttachmentUploadObject l))
      end.
Proof.
  destruct o as [text comments uploads].
  unfold marshal_WikiCreateObject, empty_string, empty_slice; cbn [member
    WikiCreateObject_Text WikiCreateObject_Comments WikiCreateObject_Uploads].
  destruct (String.eqb comments ""), uploads as [|[|u l]];
    repeat split; reflexivity.
Qed.

(** *** Decimal numerals *)

Lemma digit_val_digit_char (d : Z) :
  0 <= d < 10 → digit_val (digit_char d) = Some d.
Proof.
  intros H.
  assert (d = 0 ∨ d = 1 ∨ d = 2 ∨ d = 3 ∨ d = 4 ∨ d = 5 ∨ d = 6 ∨ d = 7
          ∨ d = 8 ∨ d = 9) as Hd by lia.
  repeat (destruct Hd as [-> | Hd]; [reflexivity|]). subst d. reflexivity.
Qed.

(** Reading back what [format_digits] wrote in front of [acc] shifts the
    value read so far by the digits written and adds [u]. *)
Lemma parse_format_digits (fuel : nat) :
  ∀ (u : Z) (acc : string),
    0 <= u < 2 ^ Z.of_nat fuel →
    ∃ k : Z, 0 <= k ∧
      ∀ a : Z, parse_digits (format_digits fuel u acc) a
               = parse_digits acc (a * 10 ^ k + u).
Proof.
  induction fuel as [|fuel IH]; intros u acc Hu.
  - exists 0. split; [lia|]. intros a. cbn [format_digits].
    change (2 ^ Z.of_nat 0) with 1 in Hu.
    replace (a * 10 ^ 0 + u) with a by (rewrite Z.pow_0_r; lia). reflexivity.
  - cbn [format_digits]. destruct (Z.ltb_spec u 10) as [Hlt | Hge].
    + exists 1. split; [lia|]. intros a. cbn [parse_digits].
      rewrite digit_val_digit_char by lia. f_equal. lia.
    + assert (2 ^ Z.of_nat (S fuel) = 2 * 2 ^ Z.of_nat fuel) as Hpow
        by (rewrite Nat2Z.inj_succ, Z.pow_succ_r; lia).
      assert (0 <= u / 10 < 2 ^ Z.of_nat fuel) as Hq.
      { split; [apply Z.div_pos; lia|].
        apply Z.div_lt_upper_bound; lia. }
      destruct (IH (u / 10) (String (digit_char (u mod 10)) acc) Hq)
        as (k & Hk & Hparse).
      exists (k + 1). split; [lia|]. intros a. rewrite Hparse.
      cbn [parse_digits].
      rewrite digit_val_digit_char by (apply Z.mod_pos_bound; lia).
      f_equal. rewrite Z.pow_add_r by lia.
      pose proof (Z.div_mod u 10 ltac:(lia)). lia.
Qed.

(** With fuel left, [format_digits] starts with a digit. *)
Lemma format_digits_head (fuel : nat) :
  ∀ (u : Z) (acc : string),
    fuel ≠ O → 0 <= u →
    ∃ (d : Z) (rest : string),
      0 <= d < 10 ∧ format_digits fuel u acc = String (digit_char d) rest.
Proof.
  induction fuel as [|fuel IH]; intros u acc Hfuel Hu; [congruence|].
  cbn [format_digits]. destruct (Z.ltb_spec u 10) as [Hlt | Hge].
  - exists u, acc. split; [lia | reflexivity].
  - destruct fuel as [|fuel'].
    + exists (u mod 10), acc. split; [apply Z.mod_pos_bound; lia | reflexivity].
    + apply IH; [congruence | apply Z.div_pos; lia].
Qed.

Lemma FormatUint_head (u : Z) :
  0 <= u →
  ∃ (d : Z) (rest : string), 0 <= d < 10 ∧ FormatUint u = String (digit_char d) rest.
Proof. intros Hu. apply format_digits_head; [congruence | exact Hu]. Qed.

(** [FormatUint] always produces the full numeral: the fuel it takes is
    enough, and the numeral reads back as the value. *)
Lemma ParseUint_FormatUint (u : Z) :
  0 <= u → ParseUint (FormatUint u) = Some u.
Proof.
  intros Hu.
  destruct (FormatUint_head u Hu) as (d & rest & _ & Hhead).
  unfold ParseUint. destruct (FormatUint u) as [|c s] eqn:Hfmt; [discriminate|].
  rewrite <- Hfmt. clear Hhead Hfmt. unfold FormatUint.
  assert (0 <= u < 2 ^ Z.of_nat (S (Z.to_nat (Z.log2 u)))) as Hbound.
  { rewrite Nat2Z.inj_succ, Z2Nat.id by apply Z.log2_nonneg.
    destruct (Z.eq_dec u 0) as [-> | Hne]; [simpl; lia|].
    pose proof (Z.log2_spec u ltac:(lia)). lia. }
  destruct (parse_format_digits _ u "" Hbound) as (k & _ & Hparse).
  rewrite Hparse. cbn [parse_digits]. f_equal; lia.
Qed.

Lemma ParseInt_digit_head (d : Z) (rest : string) :
  0 <= d < 10 →
  ParseInt (String (digit_char d) rest)
  = match ParseUint (String (digit_char d) rest) with
    | Some u => if (int_min <=? u) && (u <=? int_max) then Some u else None
    | None => None
    end.
Proof.
  intros H.
  assert (d = 0 ∨ d = 1 ∨ d = 2 ∨ d = 3 ∨ d = 4 ∨ d = 5 ∨ d = 6 ∨ d = 7
          ∨ d = 8 ∨ d = 9) as Hd by lia.
  repeat (destruct Hd as [-> | Hd]; [reflexivity|]). subst d. reflexivity.
Qed.

(** [Itoa] writes a decimal numeral of its argument: for every value of
    Go's [int], [ParseInt] reads the value back. *)
Lemma ParseInt_Itoa (i : Z) :
  int_min <= i <= int_max → ParseInt (Itoa i) = Some i.
Proof.
  intros Hi. unfold Itoa. destruct (Z.ltb_spec i 0) as [Hneg | Hpos].
  - change (ParseInt (String "-" (FormatUint (- i))))
      with (match ParseUint (FormatUint (- i)) with
            | Some u =>
                if (int_min <=? - u) && (- u <=? int_max) then Some (- u) else None
            | None => None
            end).
    rewrite ParseUint_FormatUint by lia.
    replace (- - i) with i by lia.
    destruct (Z.leb_spec int_min i), (Z.leb_spec i int_max); try lia. reflexivity.
  - destruct (FormatUint_head i Hpos) as (d & rest & Hd & Hhead).
    rewrite Hhead, ParseInt_digit_head, <- Hhead by exact Hd.
    rewrite ParseUint_FormatUint by lia.
    destruct (Z.leb_spec int_min i), (Z.leb_spec i int_max); try lia. reflexivity.
Qed.

(** C9. In the body of an update the [version] member is absent when
    [Version] is 0 and present with the decimal numeral of [Version]
    otherwise, a numeral that reads back as [Version]; so version 0 is
    sent exactly like no version at all.  In the bodies of both create
    and update, [comments] is absent when [Comments] is the empty string
    and [uploads] is absent when [Uploads] is nil or has no element;
    they are present otherwise, and [text] always is. *)
Theorem wiki_omitempty_members :
  ∀ (W : Type) (r : RContext W) (w : W) (projectID wikiTitle : string)
    (create : WikiCreateObject) (update : WikiUpdateObject),
    int_min <= WikiUpdateObject_Version update <= int_max →
    ∃ cpage upage : json,
      sent_bodies r (WikiCreate projectID wikiTitle create) w
        = [Some (JObj [("wiki_page", cpage)])]
      ∧ sent_bodies r (WikiUpdate projectID wikiTitle update) w
        = [Some (JObj [("wiki_page", upage)])]
      ∧ member "version" upage
        = (if WikiUpdateObject_Version update =? 0 then None
           else Some (JNum (Itoa (WikiUpdateObject_Version update))))
      ∧ match member "version" upage with
        | None => WikiUpdateObject_Version update = 0
        | Some (JNum literal) =>
            ParseInt literal = Some (WikiUpdateObject_Version update)
            ∧ WikiUpdateObject_Version update ≠ 0
        | Some _ => False
        end
      ∧ ParseInt (Itoa (WikiUpdateObject_Version update))
        = Some (WikiUpdateObject_Version update)
      ∧ member "comments" upage
        = (if String.eqb (WikiUpdateObject_Comments update) "" then None
           else Some (JStr (WikiUpdateObject_Comments update)))
      ∧ member "uploads" upage
        = match WikiUpdateObject_Uploads update with
          | nil_slice | mk_slice [] => None
          | mk_slice l => Some (JArr (map marshal_AttachmentUploadObject l))
          end
      ∧ member "text" upage = Some (JStr (WikiUpdateObject_Text update))
      ∧ member "comments" cpage
        = (if String.eqb (WikiCreateObject_Comments create) "" then None
           else Some (JStr (WikiCreateObject_Comments create)))
      ∧ member "uploads" cpage
        = match WikiCreateObject_Uploads create with
          | nil_slice | mk_slice [] => None
          | mk_slice l => Some (JArr (map marshal_AttachmentUploadObject l))
          end
      ∧ member "text" cpage = Some (JStr (WikiCreateObject_Text create)).
Proof.
  intros W r w projectID wikiTitle create update Hversion.
  exists (marshal_WikiCreateObject create), (marshal_WikiUpdateObject update).
  destruct (update_page_members update) as (Ut & Uc & Uv & Uu).
  destruct (create_page_members create) as (Ct & Cc & _ & Cu).
  pose proof (ParseInt_Itoa _ Hversion) as Hread.
  split; [unfold sent_bodies; run_operation; reflexivity|].
  split; [unfold sent_bodies; run_operation; reflexivity|].
  split; [exact Uv|]. split.
  { cbv zeta in Uv. rewrite Uv.
    destruct (Z.eqb_spec (WikiUpdateObject_Version update) 0) as [Hz | Hnz];
      [exact Hz | split; [exact Hread | exact Hnz]]. }
  repeat split; assumption.
Qed.

(** *** Decoding a page *)

Lemma find_wiki_page : find_field ["wiki_page"] "wiki_page" = Some 0%nat.
Proof. reflexivity. Qed.

Lemma find_title : find_field WikiObject_tags "title" = Some 0%nat.
Proof. reflexivity. Qed.

Lemma find_text : find_field WikiObject_tags "text" = Some 2%nat.
Proof. reflexivity. Qed.

Lemma find_version : find_field WikiObject_tags "version" = Some 3%nat.
Proof. reflexivity. Qed.

(** A member that selects none of [title], [text], [version] leaves
    these three fields as they are. *)
Lemma set_WikiObject_keeps (key : string) (j : json) (p : WikiObject) :
  selects_title_text_version key = false →
  WikiObject_Title (set_WikiObject key j p) = WikiObject_Title p
  ∧ WikiObject_Text (set_WikiObject key j p) = WikiObject_Text p
  ∧ WikiObject_Version (set_WikiObject key j p) = WikiObject_Version p.
Proof.
  unfold selects_title_text_version, set_WikiObject.
  destruct (find_field WikiObject_tags key) as [n|]; [|intros _; repeat split].
  do 9 (destruct n as [|n]; [first [discriminate | intros _; repeat split]|]).
  intros _; repeat split.
Qed.

Lemma fold_set_WikiObject_keeps (rest : list (string * json)) :
  ∀ p : WikiObject,
    Forall (fun kv => selects_title_text_version (fst kv) = false) rest →
    let q := fold_left (fun acc kv => set_WikiObject (fst kv) (snd kv) acc) rest p in
    WikiObject_Title q = WikiObject_Title p
    ∧ WikiObject_Text q = WikiObject_Text p
    ∧ WikiObject_Version q = WikiObject_Version p.
Proof.
  induction rest as [|[key j] rest IH]; intros p Hrest; [repeat split|].
  inversion Hrest as [|? ? Hkey Hrest']; subst.
  cbn [fold_left fst snd].
  destruct (IH (set_WikiObject key j p) Hrest') as (Ht & Hx & Hv).
  destruct (set_WikiObject_keeps key j p Hkey) as (Ht' & Hx' & Hv').
  cbv zeta. rewrite Ht, Hx, Hv. auto.
Qed.

(** Decoding [{"wiki_page": {"title": T, "text": X, "version": V, ...}}]
    into a zero [wikiSingleResult]. *)
Lemma unmarshal_page_fields (T X lit : string) (V : Z) (rest : list (string * json)) :
  ParseInt lit = Some V →
  Forall (fun kv => selects_title_text_version (fst kv) = false) rest →
  let page :=
    JObj (("title", JStr T) :: ("text", JStr X) :: ("version", JNum lit) :: rest) in
  let decoded :=
    unmarshal_wikiSingleResult (JObj [("wiki_page", page)]) zero_wikiSingleResult in
  wikiSingleResult_WikiPage decoded = unmarshal_WikiObject page zero_WikiObject
  ∧ WikiObject_Title (wikiSingleResult_WikiPage decoded) = T
  ∧ WikiObject_Text (wikiSingleResult_WikiPage decoded) = X
  ∧ WikiObject_Version (wikiSingleResult_WikiPage decoded) = V.
Proof.
  intros Hlit Hrest page decoded.
  assert (wikiSingleResult_WikiPage decoded = unmarshal_WikiObject page zero_WikiObject)
    as Hpage.
  { subst decoded. unfold unmarshal_wikiSingleResult, unmarshal_struct.
    cbn [fold_left fst snd]. unfold set_wikiSingleResult.
    rewrite find_wiki_page. reflexivity. }
  split; [exact Hpage|]. rewrite Hpage. subst page.
  unfold unmarshal_WikiObject, unmarshal_struct. cbn [fold_left fst snd].
  match goal with
  | |- context [fold_left ?f rest ?p] =>
      destruct (fold_set_WikiObject_keeps rest p Hrest) as (Ht & Hx & Hv)
  end.
  cbv zeta in Ht, Hx, Hv. rewrite Ht, Hx, Hv.
  unfold set_WikiObject at 1 2 3. rewrite find_version.
  cbn [WikiObject_Title WikiObject_Text WikiObject_Version].
  unfold set_WikiObject at 1 2 3 4. rewrite find_text.
  cbn [WikiObject_Title WikiObject_Text WikiObject_Version].
  unfold set_WikiObject. rewrite find_title.
  cbn [WikiObject_Title WikiObject_Text WikiObject_Version zero_WikiObject
         unmarshal_string unmarshal_int].
  rewrite Hlit. repeat split.
Qed.

(** C5. When the transport answers [WikiCreate] with status 201 and no
    error, having decoded a body
    [{"wiki_page": {"title": T, "text": X, "version": V, ...}}] into the
    struct behind [out], the operation returns the decoded inner
    [wiki_page] object: a [WikiObject] with [Title] T, [Text] X and
    [Version] V, with status 201 and the nil error.  The further members
    are any that select none of these three fields, and V is the value of
    the numeral in the body. *)
Theorem wiki_create_returns_decoded_page :
  ∀ (W : Type) (r : RContext W) (w : W) (projectID wikiTitle : string)
    (wiki : WikiCreateObject) (T X lit : string) (V : Z)
    (rest : list (string * json)),
    let page :=
      JObj (("title", JStr T) :: ("text", JStr X) :: ("version", JNum lit) :: rest) in
    fills_from (JObj [("wiki_page", page)]) r (WikiCreate projectID wikiTitle wiki) w →
    outcomes r (WikiCreate projectID wikiTitle wiki) w = [(StatusCreated, None)] →
    ParseInt lit = Some V →
    Forall (fun kv => selects_title_text_version (fst kv) = false) rest →
    let res := result r (WikiCreate projectID wikiTitle wiki) w in
    value_of res = unmarshal_WikiObject page zero_WikiObject
    ∧ WikiObject_Title (value_of res) = T
    ∧ WikiObject_Text (value_of res) = X
    ∧ WikiObject_Version (value_of res) = V
    ∧ status_error res = (201, None).
Proof.
  intros W r w projectID wikiTitle wiki T X lit V rest page Hfill Hout Hlit Hrest res.
  subst res. unfold fills_from, outcomes in *. revert Hfill Hout. run_operation.
  cbn [map]. intros Hfill Hout.
  apply singleton_eq in Hfill, Hout. injection Hout as Hstatus Herr.
  apply (f_equal pointer_page) in Hfill.
  cbn [event_filled event_request event_response request_out decode_into
         pointer_page out_target] in Hfill.
  injection Hfill as Hpage.
  destruct (unmarshal_page_fields T X lit V rest Hlit Hrest) as (Hu & Ht & Hx & Hv).
  unfold value_of, status_error. cbv beta.
  cbn [fst snd event_request event_response request_out out_target]
    in Hstatus, Herr |- *.
  fold page in Hu, Ht, Hx, Hv. rewrite Hpage, Hstatus, Herr.
  repeat split; assumption.
Qed.

(** C7. [WikiAllGet] returns the page list exactly as the transport left
    it behind [out]: the struct the transport filled is the one whose
    [WikiPages] is the returned slice, so the elements and their order
    are the transport's; and against a transport that decodes the
    sequence [pages], the operation returns [pages] itself. *)
Theorem wiki_all_get_returns_transport_sequence :
  ∀ (W : Type) (r : RContext W) (w : W) (projectID : string)
    (pages : slice WikiMultiObject) (page : WikiObject) (st : Z) (e : error),
    map event_filled (trace r (WikiAllGet projectID) w)
      = [addr all_target
           {| wikiAllResult_WikiPages := value_of (result r (WikiAllGet projectID) w) |}]
    ∧ map (fun ev => pointer_pages (event_filled ev)) (trace r (WikiAllGet projectID) w)
      = [Some (value_of (result r (WikiAllGet projectID) w))]
    ∧ result (scripted_transport pages page st e) (WikiAllGet projectID) tt
      = (pages, st, e).
Proof.
  intros. repeat split; run_operation; cbn [map]; [|reflexivity].
  unfold event_filled, value_of. cbn [event_request event_response request_out
    out_target fst].
  destruct (filled _). reflexivity.
Qed.

(** *** Results on error *)

(** C10. When the transport call of [WikiAllGet], [WikiSingleGet],
    [WikiSingleVersionGet] or [WikiCreate] returns a non-nil error, the
    operation still returns what the struct behind [out] holds after the
    call, next to the transport's status and error: the page list or the
    page the transport left there, and the zero value (the nil slice,
    the zero [WikiObject]) when the transport left the struct
    untouched. *)
Theorem wiki_value_returned_on_error :
  ∀ (W : Type) (r : RContext W) (w : W) (projectID wikiTitle : string) (version : Z)
    (request : WikiSingleGetRequest) (create : WikiCreateObject),
    let filled_pages {A} (p : Transport A) :=
      map (fun ev => pointer_pages (event_filled ev)) (trace r p w) in
    let filled_page {A} (p : Transport A) :=
      map (fun ev => pointer_page (event_filled ev)) (trace r p w) in
    let res1 := result r (WikiAllGet projectID) w in
    let res2 := result r (WikiSingleGet projectID wikiTitle request) w in
    let res3 := result r (WikiSingleVersionGet projectID wikiTitle version request) w in
    let res4 := result r (WikiCreate projectID wikiTitle create) w in
    (all_calls_fail r (WikiAllGet projectID) w →
     filled_pages (WikiAllGet projectID) = [Some (value_of res1)]
     ∧ outcomes r (WikiAllGet projectID) w = [status_error res1]
     ∧ snd res1 ≠ None
     ∧ (leaves_untouched r (WikiAllGet projectID) w → value_of res1 = nil_slice))
    ∧ (all_calls_fail r (WikiSingleGet projectID wikiTitle request) w →
       filled_page (WikiSingleGet projectID wikiTitle request) = [Some (value_of res2)]
       ∧ outcomes r (WikiSingleGet projectID wikiTitle request) w = [status_error res2]
       ∧ snd res2 ≠ None
       ∧ (leaves_untouched r (WikiSingleGet projectID wikiTitle request) w
          → value_of res2 = zero_WikiObject))
    ∧ (all_calls_fail r (WikiSingleVersionGet projectID wikiTitle version request) w →
       filled_page (WikiSingleVersionGet projectID wikiTitle version request)
         = [Some (value_of res3)]
       ∧ outcomes r (WikiSingleVersionGet projectID wikiTitle version request) w
         = [status_error res3]
       ∧ snd res3 ≠ None
       ∧ (leaves_untouched r (WikiSingleVersionGet projectID wikiTitle version request) w
          → value_of res3 = zero_WikiObject))
    ∧ (all_calls_fail r (WikiCreate projectID wikiTitle create) w →
       filled_page (WikiCreate projectID wikiTitle create) = [Some (value_of res4)]
       ∧ outcomes r (WikiCreate projectID wikiTitle create) w = [status_error res4]
       ∧ snd res4 ≠ None
       ∧ (leaves_untouched r (WikiCreate projectID wikiTitle create) w
          → value_of res4 = zero_WikiObject)).
Proof.
  intros W r w projectID wikiTitle version request create
    filled_pages filled_page res1 res2 res3 res4.
  subst filled_pages filled_page res1 res2 res3 res4. cbv beta.
  unfold all_calls_fail, outcomes, leaves_untouched.
  run_operation. cbn [map].
  unfold value_of, status_error, event_outcome, event_filled.
  cbn [fst snd event_request event_response request_out out_target
         pointer_page pointer_pages].
  split; [|split; [|split]]; intros Hfail; apply Forall_inv in Hfail;
    (split; [reflexivity|]); (split; [reflexivity|]); (split; [exact Hfail|]);
    intros Hsame; apply singleton_eq in Hsame.
  - apply (f_equal pointer_pages) in Hsame. cbn in Hsame. congruence.
  - apply (f_equal pointer_page) in Hsame. cbn in Hsame. congruence.
  - apply (f_equal pointer_page) in Hsame. cbn in Hsame. congruence.
  - apply (f_equal pointer_page) in Hsame. cbn in Hsame. congruence.
Qed.

(** *** Version requests and include sets *)

(** C8. [WikiSingleVersionGet] makes one call: a [Get] with expected
    status 200 into a fresh [wikiSingleResult], whose path is
    [/projects/{projectID}/wiki/{wikiTitle}/{version}.json] with the
    version written as the decimal numeral [Itoa version] (the numeral
    reads back as [version]), and whose raw query is the encoding of the
    parameters [urlIncludes] made of the include-set. *)
Theorem wiki_single_version_get_request :
  ∀ (W : Type) (r : RContext W) (w : W) (projectID wikiTitle : string) (version : Z)
    (request : WikiSingleGetRequest),
    int_min <= version <= int_max →
    map event_request (trace r (WikiSingleVersionGet projectID wikiTitle version request) w)
      = [Get (addr single_target zero_wikiSingleResult)
           {| Path := expand (segments projectID wikiTitle (Itoa version)) version_template;
              RawQuery := Values_Encode (urlIncludes ∅ (Includes request));
              ForceQuery := false |}
           200]
    ∧ ParseInt (Itoa version) = Some version
    ∧ map call_profile (trace r (WikiSingleVersionGet projectID wikiTitle version request) w)
      = [(GET, 200, Page)].
Proof.
  intros W r w projectID wikiTitle version request Hversion.
  split; [|split; [apply ParseInt_Itoa; exact Hversion|]]; run_operation;
    [|reflexivity].
  cbn [map event_request]. do 3 f_equal.
  rewrite !append_assoc. reflexivity.
Qed.

(** C6. With [urlIncludes] as the specification describes it, the URL
    [WikiSingleGet] and [WikiSingleVersionGet] build for the include-set
    [["attachments"]] has the raw query [include=attachments], so the
    value [attachments] literally; for an empty include-set, nil or of
    length zero, the raw query is empty and [ForceQuery] is unset, so the
    rendered URL has no '?' part. *)
Theorem wiki_include_query :
  ∀ (W : Type) (r : RContext W) (w : W) (projectID wikiTitle : string) (version : Z),
    (∀ (v : Values) (inc : slice string), urlIncludes v inc = urlIncludes_spec v inc) →
    let uris (request : WikiSingleGetRequest) :=
      map (fun ev => request_uri (event_request ev))
        (trace r (WikiSingleGet projectID wikiTitle request) w)
      ++ map (fun ev => request_uri (event_request ev))
           (trace r (WikiSingleVersionGet projectID wikiTitle version request) w) in
    map RawQuery (uris {| Includes := mk_slice ["attachments"] |})
      = ["include=attachments"; "include=attachments"]
    ∧ map query_component (uris {| Includes := mk_slice ["attachments"] |})
      = ["?include=attachments"; "?include=attachments"]
    ∧ map RawQuery (uris {| Includes := nil_slice |}) = [""; ""]
    ∧ map RawQuery (uris {| Includes := mk_slice [] |}) = [""; ""]
    ∧ map query_component (uris {| Includes := nil_slice |}) = [""; ""]
    ∧ map query_component (uris {| Includes := mk_slice [] |}) = [""; ""].
Proof.
  intros W r w projectID wikiTitle version Hinc uris. subst uris. cbv beta.
  repeat split; run_operation; rewrite !Hinc;
    cbn [map app request_uri event_request RawQuery Includes];
    unfold query_component; cbn [RawQuery ForceQuery];
    vm_compute; reflexivity.
Qed.

End WikiProperties.

(* ================================================================== *)
(** ** Concrete runs

    The statements above at explicit inputs, over [example_package]. *)

#[local] Existing Instance example_package.

(** C4 as the specification words it fails on the page "Home" with text
    "Hello": the body [WikiCreate] sends has the single top-level member
    [wiki_page], and is not the object of the listed fields; likewise
    for [WikiUpdate]. *)
Lemma wiki_body_fields_not_top_level :
  sent_bodies (constant_transport 201 None) (WikiCreate "demo" "Home" home_create) tt
    = [Some (JObj [("wiki_page", JObj [("text", JStr "Hello")])])]
  ∧ sent_bodies (constant_transport 201 None) (WikiCreate "demo" "Home" home_create) tt
    ≠ [Some (JObj [("text", JStr "Hello")])]
  ∧ map (fun body => top_level_keys <$> body)
      (sent_bodies (constant_transport 201 None) (WikiCreate "demo" "Home" home_create) tt)
    = [Some ["wiki_page"]]
  ∧ sent_bodies (constant_transport 204 None) (WikiUpdate "demo" "Home" home_update) tt
    = [Some (JObj [("wiki_page", JObj [("text", JStr "Hello"); ("version", JNum "2")])])]
  ∧ sent_bodies (constant_transport 204 None) (WikiUpdate "demo" "Home" home_update) tt
    ≠ [Some (JObj [("text", JStr "Hello"); ("version", JNum "2")])]
  ∧ map (fun body => top_level_keys <$> body)
      (sent_bodies (constant_transport 204 None) (WikiUpdate "demo" "Home" home_update) tt)
    = [Some ["wiki_page"]].
Proof.
  repeat split; try reflexivity; vm_compute; discriminate.
Qed.

(** The path of a title with a slash, a question mark, a space and a
    percent sign is passed on with these bytes as they are. *)
Example wiki_path_special_characters :
  map request_path
    (trace (constant_transport 200 None)
       (WikiSingleGet "a/b" "x ?y%20z" with_attachments) tt)
  = ["/projects/a/b/wiki/x ?y%20z.json"].
Proof. reflexivity. Qed.

(** The response of the scenario decoded into a zero result. *)
Example unmarshal_home_body :
  unmarshal_wikiSingleResult home_body zero_wikiSingleResult
  = {| wikiSingleResult_WikiPage := {|
         WikiObject_Title := "Home"; WikiObject_Parent := None;
         WikiObject_Text := "Hello"; WikiObject_Version := 1;
         WikiObject_Author := {| ExampleIDName_ID := 5; ExampleIDName_Name := "admin" |};
         WikiObject_Comments := ""; WikiObject_CreatedOn := "";
         WikiObject_UpdatedOn := ""; WikiObject_Attachments := None |} |}.
Proof. reflexivity. Qed.

(** An update with comments, a version and one upload, as it is sent. *)
Example marshal_update_example :
  marshal_wikiUpdate
    {| wikiUpdate_WikiPage := {|
         WikiUpdateObject_Text := "Hello"; WikiUpdateObject_Comments := "typo";
         WikiUpdateObject_Version := 3;
         WikiUpdateObject_Uploads :=
           mk_slice [{| ExampleUpload_Filename := "a.png"; ExampleUpload_Token := "7.ab";
                        ExampleUpload_ContentType := "" |}
                     : AttachmentUploadObject] |} |}
  = JObj [("wiki_page",
           JObj [("text", JStr "Hello"); ("comments", JStr "typo");
                 ("version", JNum "3");
                 ("uploads",
                  JArr [JObj [("filename", JStr "a.png"); ("token", JStr "7.ab")]])])].
Proof. reflexivity. Qed.

(** C5 on the scenario of the specification: page "Home" created with
    text "Hello", the transport answering 201 with the page at version 1
    and its author. *)
Lemma wiki_create_returns_decoded_page_witness :
  fills_from home_body (decoding_transport home_body 201 None)
    (WikiCreate "demo" "Home" home_create) tt
  ∧ outcomes (decoding_transport home_body 201 None)
      (WikiCreate "demo" "Home" home_create) tt = [(StatusCreated, None)]
  ∧ ParseInt "1" = Some 1
  ∧ Forall (fun kv => selects_title_text_version (fst kv) = false) home_rest
  ∧ WikiObject_Title
      (value_of (result (decoding_transport home_body 201 None)
                   (WikiCreate "demo" "Home" home_create) tt)) = "Home"
  ∧ WikiObject_Text
      (value_of (result (decoding_transport home_body 201 None)
                   (WikiCreate "demo" "Home" home_create) tt)) = "Hello"
  ∧ WikiObject_Version
      (value_of (result (decoding_transport home_body 201 None)
                   (WikiCreate "demo" "Home" home_create) tt)) = 1
  ∧ status_error (result (decoding_transport home_body 201 None)
                    (WikiCreate "demo" "Home" home_create) tt) = (201, None).
Proof.
  assert (Hfill : fills_from home_body (decoding_transport home_body 201 None)
                    (WikiCreate "demo" "Home" home_create) tt) by reflexivity.
  assert (Hout : outcomes (decoding_transport home_body 201 None)
                   (WikiCreate "demo" "Home" home_create) tt = [(StatusCreated, None)])
    by reflexivity.
  assert (Hlit : ParseInt "1" = Some 1) by reflexivity.
  assert (Hrest : Forall (fun kv => selects_title_text_version (fst kv) = false) home_rest)
    by (repeat constructor).
  split; [exact Hfill|]. split; [exact Hout|].
  split; [exact Hlit|]. split; [exact Hrest|].
  exact (proj2 (wiki_create_returns_decoded_page unit
    (decoding_transport home_body 201 None) tt "demo" "Home" home_create
    "Home" "Hello" "1" 1 home_rest Hfill Hout Hlit Hrest)).
Defined.

(** C10 against a transport that refuses every connection: each
    operation returns the zero value and the transport's error. *)
Lemma wiki_value_returned_on_error_witness :
  all_calls_fail refusing_transport (WikiAllGet "demo") tt
  ∧ all_calls_fail refusing_transport (WikiSingleGet "demo" "Home" with_attachments) tt
  ∧ all_calls_fail refusing_transport
      (WikiSingleVersionGet "demo" "Home" 3 with_attachments) tt
  ∧ all_calls_fail refusing_transport (WikiCreate "demo" "Home" home_create) tt
  ∧ value_of (result refusing_transport (WikiAllGet "demo") tt) = nil_slice
  ∧ value_of (result refusing_transport (WikiSingleGet "demo" "Home" with_attachments) tt)
    = zero_WikiObject
  ∧ value_of (result refusing_transport
                (WikiSingleVersionGet "demo" "Home" 3 with_attachments) tt)
    = zero_WikiObject
  ∧ value_of (result refusing_transport (WikiCreate "demo" "Home" home_create) tt)
    = zero_WikiObject
  ∧ snd (result refusing_transport (WikiCreate "demo" "Home" home_create) tt) ≠ None.
Proof.
  assert (H1 : all_calls_fail refusing_transport (WikiAllGet "demo") tt)
    by (repeat constructor; discriminate).
  assert (H2 : all_calls_fail refusing_transport
                 (WikiSingleGet "demo" "Home" with_attachments) tt)
    by (repeat constructor; discriminate).
  assert (H3 : all_calls_fail refusing_transport
                 (WikiSingleVersionGet "demo" "Home" 3 with_attachments) tt)
    by (repeat constructor; discriminate).
  assert (H4 : all_calls_fail refusing_transport (WikiCreate "demo" "Home" home_create) tt)
    by (repeat constructor; discriminate).
  destruct (wiki_value_returned_on_error unit refusing_transport tt "demo" "Home" 3
              with_attachments home_create) as (C1 & C2 & C3 & C4).
  destruct (C1 H1) as (_ & _ & _ & Hz1). destruct (C2 H2) as (_ & _ & _ & Hz2).
  destruct (C3 H3) as (_ & _ & _ & Hz3). destruct (C4 H4) as (_ & _ & He4 & Hz4).
  exact (conj H1 (conj H2 (conj H3 (conj H4
    (conj (Hz1 eq_refl) (conj (Hz2 eq_refl) (conj (Hz3 eq_refl)
      (conj (Hz4 eq_refl) He4)))))))).
Defined.

(** C8 at version 3 of page "Home". *)
Lemma wiki_single_version_get_request_witness :
  int_min <= 3 <= int_max
  ∧ map event_request
      (trace (constant_transport 200 None)
         (WikiSingleVersionGet "demo" "Home" 3 with_attachments) tt)
    = [Get (addr single_target zero_wikiSingleResult)
         {| Path := "/projects/demo/wiki/Home/3.json";
            RawQuery := "include=attachments"; ForceQuery := false |}
         200]
  ∧ ParseInt (Itoa 3) = Some 3.
Proof.
  assert (Hrange : int_min <= 3 <= int_max) by (unfold int_min, int_max; lia).
  split; [exact Hrange|].
  destruct (wiki_single_version_get_request unit (constant_transport 200 None) tt
              "demo" "Home" 3 with_attachments Hrange) as (Hreq & Hparse & _).
  split; [exact Hreq | exact Hparse].
Defined.

(** C9 on the update of the scenario, which carries version 2 and
    neither comments nor uploads. *)
Lemma wiki_omitempty_members_witness :
  int_min <= WikiUpdateObject_Version home_update <= int_max
  ∧ ∃ upage : json,
      sent_bodies (constant_transport 204 None) (WikiUpdate "demo" "Home" home_update) tt
        = [Some (JObj [("wiki_page", upage)])]
      ∧ member "version" upage = Some (JNum "2")
      ∧ ParseInt "2" = Some 2
      ∧ member "comments" upage = None
      ∧ member "uploads" upage = None
      ∧ member "text" upage = Some (JStr "Hello").
Proof.
  assert (Hversion : int_min <= WikiUpdateObject_Version home_update <= int_max)
    by (unfold int_min, int_max; cbn; lia).
  split; [exact Hversion|].
  destruct (wiki_omitempty_members unit (constant_transport 204 None) tt "demo" "Home"
              home_create home_update Hversion)
    as (cpage & upage & _ & Hsent & Hv & _ & Hread & Hc & Hu & Ht & _).
  exists upage.
  exact (conj Hsent (conj Hv (conj Hread (conj Hc (conj Hu Ht))))).
Defined.

(** C6 over [example_package], whose [urlIncludes] is the one of the
    specification. *)
Lemma wiki_include_query_witness :
  (∀ (v : Values) (inc : slice string),
     urlIncludes (Package := example_package) v inc = urlIncludes_spec v inc)
  ∧ map request_query
      (trace (constant_transport 200 None) (WikiSingleGet "demo" "Home" with_attachments) tt)
    = ["include=attachments"]
  ∧ map request_query
      (trace (constant_transport 200 None)
         (WikiSingleGet "demo" "Home" {| Includes := nil_slice |}) tt)
    = [""].
Proof.
  assert (Hinc : ∀ (v : Values) (inc : slice string),
             urlIncludes (Package := example_package) v inc = urlIncludes_spec v inc)
    by (intros; reflexivity).
  split; [exact Hinc|].
  destruct (wiki_include_query unit (constant_transport 200 None) tt "demo" "Home" 3 Hinc)
    as (Hq & _ & Hnil & _).
  split.
  - apply (f_equal (take 1)) in Hq. exact Hq.
  - apply (f_equal (take 1)) in Hnil. exact Hnil.
Defined.

(* ================================================================== *)
(** ** Further properties of wikies.go *)

Section WikiFurtherProperties.

Context {pkg : Package}.

Ltac run_calls :=
  unfold requests, WikiAllGet, WikiSingleGet, WikiSingleVersionGet, WikiCreate,
    WikiUpdate, WikiDelete;
  rewrite ?trace_one_call, ?result_one_call.

(** *** Strings *)

Lemma append_cons (x : ascii) (a b : string) : String x a +:+ b = String x (a +:+ b).
Proof. reflexivity. Qed.

Lemma append_empty_r (a : string) : a +:+ "" = a.
Proof.
  induction a as [|x a IH]; [reflexivity|]. rewrite append_cons, IH. reflexivity.
Qed.

Lemma length_append (a b : string) :
  String.length (a +:+ b) = (String.length a + String.length b)%nat.
Proof.
  induction a as [|x a IH]; [reflexivity|].
  rewrite append_cons. cbn [String.length]. rewrite IH. reflexivity.
Qed.

(** Equal strings with a common suffix have equal fronts. *)
Lemma append_inv_tail (a b c : string) : a +:+ c = b +:+ c → a = b.
Proof.
  revert b. induction a as [|x a IH]; intros [|y b] H.
  - reflexivity.
  - apply (f_equal String.length) in H. rewrite !length_append in H.
    cbn [String.length] in H. lia.
  - apply (f_equal String.length) in H. rewrite !length_append in H.
    cbn [String.length] in H. lia.
  - rewrite !append_cons in H. injection H as -> H. f_equal. apply IH, H.
Qed.

Lemma has_byte_append (c : ascii) (a b : string) :
  has_byte c (a +:+ b) = has_byte c a || has_byte c b.
Proof.
  induction a as [|x a IH]; [reflexivity|].
  rewrite append_cons. cbn [has_byte]. rewrite IH, orb_assoc. reflexivity.
Qed.


(** Bytes that all satisfy [p] do not include a byte that does not. *)
Lemma all_bytes_has_byte (p : ascii → bool) (c : ascii) (s : string) :
  p c = false → all_bytes p s = true → has_byte c s = false.
Proof.
  intros Hc. induction s as [|x s IH]; [reflexivity|]. cbn [all_bytes has_byte].
  intros [Hx Hs]%andb_true_iff. rewrite (IH Hs), orb_false_r.
  destruct (Ascii.eqb_spec x c) as [-> | Hne]; [congruence | reflexivity].
Qed.

(** Splitting at the first separator: two strings without '/' followed
    by '/' and a rest are equal part by part. *)
Lemma split_at_first_slash (a a' b b' : string) :
  slash_free a → slash_free a' →
  a +:+ String "/" b = a' +:+ String "/" b' → a = a' ∧ b = b'.
Proof.
  unfold slash_free. revert a'.
  induction a as [|x a IH]; intros [|y a'] Ha Ha' H.
  - cbn in H. injection H as ->. split; reflexivity.
  - rewrite append_cons in H. cbn [String.append] in H. injection H as <- _.
    cbn in Ha'. discriminate.
  - rewrite append_cons in H. cbn [String.append] in H. injection H as -> _.
    cbn in Ha. discriminate.
  - rewrite !append_cons in H. injection H as -> H.
    cbn [has_byte] in Ha, Ha'.
    apply orb_false_iff in Ha as [_ Ha]. apply orb_false_iff in Ha' as [_ Ha'].
    destruct (IH a' Ha Ha' H) as [-> ->]. split; reflexivity.
Qed.

(** Splitting at the last separator: a '/' followed by a rest without
    '/' is found at the same place in equal strings. *)
Lemma split_at_last_slash (a a' b b' : string) :
  slash_free b → slash_free b' →
  a +:+ String "/" b = a' +:+ String "/" b' → a = a' ∧ b = b'.
Proof.
  unfold slash_free. intros Hb Hb'. revert a'.
  induction a as [|x a IH]; intros [|y a'] H.
  - cbn in H. injection H as ->. split; reflexivity.
  - rewrite append_cons in H. cbn [String.append] in H. injection H as _ H.
    rewrite H, has_byte_append in Hb. cbn in Hb.
    rewrite orb_true_r in Hb. discriminate.
  - rewrite append_cons in H. cbn [String.append] in H. injection H as _ H.
    rewrite <- H, has_byte_append in Hb'. cbn in Hb'.
    rewrite orb_true_r in Hb'. discriminate.
  - rewrite !append_cons in H. injection H as -> H.
    destruct (IH a' H) as [-> ->]. split; reflexivity.
Qed.

(** *** The numeral of a version *)

Lemma is_digit_digit_char (d : Z) : 0 <= d < 10 → is_digit (digit_char d) = true.
Proof.
  intros H.
  assert (d = 0 ∨ d = 1 ∨ d = 2 ∨ d = 3 ∨ d = 4 ∨ d = 5 ∨ d = 6 ∨ d = 7
          ∨ d = 8 ∨ d = 9) as Hd by lia.
  repeat (destruct Hd as [-> | Hd]; [reflexivity|]). subst d. reflexivity.
Qed.

Lemma format_digits_all_digits (fuel : nat) :
  ∀ (u : Z) (acc : string),
    0 <= u → all_bytes is_digit acc = true →
    all_bytes is_digit (format_digits fuel u acc) = true.
Proof.
  induction fuel as [|fuel IH]; intros u acc Hu Hacc; [exact Hacc|].
  cbn [format_digits]. destruct (Z.ltb_spec u 10) as [Hlt | Hge].
  - cbn [all_bytes]. rewrite is_digit_digit_char by lia. exact Hacc.
  - apply IH; [apply Z.div_pos; lia|]. cbn [all_bytes].
    rewrite is_digit_digit_char by (apply Z.mod_pos_bound; lia). exact Hacc.
Qed.

Lemma FormatUint_all_digits (u : Z) : 0 <= u → all_bytes is_digit (FormatUint u) = true.
Proof. intros Hu. apply format_digits_all_digits; [exact Hu | reflexivity]. Qed.

Lemma all_bytes_weaken (p q : ascii → bool) (s : string) :
  (∀ c, p c = true → q c = true) → all_bytes p s = true → all_bytes q s = true.
Proof.
  intros Hpq. induction s as [|x s IH]; [reflexivity|]. cbn [all_bytes].
  intros [Hx Hs]%andb_true_iff. rewrite (Hpq x Hx), (IH Hs). reflexivity.
Qed.

(** [Itoa] writes each value of [Z] differently. *)
Lemma Itoa_inj (a b : Z) : Itoa a = Itoa b → a = b.
Proof.
  unfold Itoa.
  destruct (Z.ltb_spec a 0) as [Ha | Ha], (Z.ltb_spec b 0) as [Hb | Hb]; intros H.
  - injection H as H. apply (f_equal ParseUint) in H.
    rewrite !ParseUint_FormatUint in H by lia. injection H as H. lia.
  - destruct (FormatUint_head b Hb) as (d & rest & Hd & Hhead).
    rewrite Hhead in H. injection H as H _.
    apply (f_equal is_digit) in H. rewrite is_digit_digit_char in H by exact Hd.
    discriminate.
  - destruct (FormatUint_head a Ha) as (d & rest & Hd & Hhead).
    rewrite Hhead in H. injection H as H _.
    apply (f_equal is_digit) in H. rewrite is_digit_digit_char in H by exact Hd.
    discriminate.
  - apply (f_equal ParseUint) in H.
    rewrite !ParseUint_FormatUint in H by lia. injection H as H. exact H.
Qed.

Lemma Itoa_bytes (i : Z) : all_bytes is_digit_or_minus (Itoa i) = true.
Proof.
  assert (Hweak : ∀ c, is_digit c = true → is_digit_or_minus c = true)
    by (intros c Hc; unfold is_digit_or_minus; rewrite Hc; reflexivity).
  unfold Itoa. destruct (Z.ltb_spec i 0) as [Hneg | Hpos].
  - cbn [all_bytes].
    rewrite (all_bytes_weaken _ _ _ Hweak (FormatUint_all_digits (- i) ltac:(lia))).
    reflexivity.
  - exact (all_bytes_weaken _ _ _ Hweak (FormatUint_all_digits i Hpos)).
Qed.

Lemma Itoa_slash_free (i : Z) : slash_free (Itoa i).
Proof.
  apply (all_bytes_has_byte is_digit_or_minus); [reflexivity | apply Itoa_bytes].
Qed.

Lemma append_inv_head (a b c : string) : a +:+ b = a +:+ c → b = c.
Proof.
  induction a as [|x a IH]; intros H; [exact H|].
  rewrite !append_cons in H. injection H as H. apply IH, H.
Qed.

(** *** Which URL an operation addresses *)

(** The path and the raw query of the calls of a run. *)
Lemma page_path_assoc (projectID wikiTitle : string) :
  ((("/projects/" +:+ projectID) +:+ "/wiki/") +:+ wikiTitle) +:+ ".json"
  = "/projects/" +:+ projectID +:+ "/wiki/" +:+ wikiTitle +:+ ".json".
Proof. rewrite !append_assoc. reflexivity. Qed.

Lemma version_path_assoc (projectID wikiTitle numeral : string) :
  ((((("/projects/" +:+ projectID) +:+ "/wiki/") +:+ wikiTitle) +:+ "/") +:+ numeral)
    +:+ ".json"
  = "/projects/" +:+ projectID +:+ "/wiki/" +:+ wikiTitle +:+ "/" +:+ numeral +:+ ".json".
Proof. rewrite !append_assoc. reflexivity. Qed.

(** X1. For one project and title, [WikiCreate], [WikiUpdate] and
    [WikiDelete] address the same URL, which has no query part, as the
    URL of [WikiAllGet] has none; [WikiSingleGet] addresses the same
    path, and [WikiSingleGet] and [WikiSingleVersionGet] send the same
    raw query for the same request. *)
Theorem wiki_page_operations_share_url :
  ∀ (W : Type) (r : RContext W) (w : W) (projectID wikiTitle : string) (version : Z)
    (request : WikiSingleGetRequest) (create : WikiCreateObject)
    (update : WikiUpdateObject),
    map request_uri (requests r (WikiCreate projectID wikiTitle create) w)
      = map request_uri (requests r (WikiDelete projectID wikiTitle) w)
    ∧ map request_uri (requests r (WikiUpdate projectID wikiTitle update) w)
      = map request_uri (requests r (WikiDelete projectID wikiTitle) w)
    ∧ map query_component
        (map request_uri (requests r (WikiDelete projectID wikiTitle) w)) = [""]
    ∧ map query_component (map request_uri (requests r (WikiAllGet projectID) w)) = [""]
    ∧ map request_path (trace r (WikiSingleGet projectID wikiTitle request) w)
      = map request_path (trace r (WikiDelete projectID wikiTitle) w)
    ∧ map request_query (trace r (WikiSingleGet projectID wikiTitle request) w)
      = map request_query
          (trace r (WikiSingleVersionGet projectID wikiTitle version request) w).
Proof.
  intros. repeat split; run_calls; reflexivity.
Qed.

Lemma member_wiki_page (page : json) :
  member "wiki_page" (JObj [("wiki_page", page)]) = Some page.
Proof. reflexivity. Qed.

(** X2. An update and a create of the same page with the same text,
    comments and uploads ask the same of the server (verb, URL and body)
    exactly when the update carries version 0: a version other than 0 is
    the only thing that tells the two requests apart. *)
Theorem wiki_update_is_create_iff_version_zero :
  ∀ (W : Type) (r : RContext W) (w : W) (projectID wikiTitle text comments : string)
    (version : Z) (uploads : slice AttachmentUploadObject),
    map sent_request
      (requests r
         (WikiUpdate projectID wikiTitle
            {| WikiUpdateObject_Text := text; WikiUpdateObject_Comments := comments;
               WikiUpdateObject_Version := version;
               WikiUpdateObject_Uploads := uploads |}) w)
    = map sent_request
        (requests r
           (WikiCreate projectID wikiTitle
              {| WikiCreateObject_Text := text; WikiCreateObject_Comments := comments;
                 WikiCreateObject_Uploads := uploads |}) w)
    ↔ version = 0.
Proof.
  intros. run_calls. cbn [map event_request]. unfold sent_request.
  cbn [request_verb request_uri request_in request_body].
  unfold marshal_wikiUpdate, marshal_wikiCreate, field.
  cbn [wikiUpdate_WikiPage wikiCreate_WikiPage].
  split.
  - intros H. apply singleton_eq in H.
    apply (f_equal (fun sent : verb * URL * option json =>
                      match snd sent with
                      | Some body =>
                          match member "wiki_page" body with
                          | Some page => member "version" page
                          | None => None
                          end
                      | None => None
                      end)) in H.
    cbn [snd] in H. rewrite !member_wiki_page in H.
    destruct (update_page_members
                {| WikiUpdateObject_Text := text; WikiUpdateObject_Comments := comments;
                   WikiUpdateObject_Version := version;
                   WikiUpdateObject_Uploads := uploads |}) as (_ & _ & Hu & _).
    destruct (create_page_members
                {| WikiCreateObject_Text := text; WikiCreateObject_Comments := comments;
                   WikiCreateObject_Uploads := uploads |}) as (_ & _ & Hc & _).
    cbv zeta in Hu, Hc. rewrite Hu, Hc in H.
    cbn [WikiUpdateObject_Version] in H.
    destruct (Z.eqb_spec version 0) as [Hz | Hnz]; [exact Hz | discriminate].
  - intros ->. reflexivity.
Qed.

(** Two programs that differ in the path of their one call only. *)
Lemma run_equal_paths {W A} (r : RContext W) (w : W) (F : string → Transport A)
    (path path' : string) :
  path = path' → run r (F path) w = run r (F path') w.
Proof. intros ->. reflexivity. Qed.

(** X3. Paths are not kept apart from one another: getting version [v]
    of page [t] is, call for call and result for result, getting the
    latest version of the page titled [t/v]; and the page titled [index]
    has the path of the page list. *)
Theorem wiki_title_collisions :
  ∀ (W : Type) (r : RContext W) (w : W) (projectID wikiTitle : string) (version : Z)
    (req : WikiSingleGetRequest),
    run r (WikiSingleVersionGet projectID wikiTitle version req) w
      = run r (WikiSingleGet projectID (wikiTitle +:+ "/" +:+ Itoa version) req) w
    ∧ map request_path (trace r (WikiSingleGet projectID "index" req) w)
      = map request_path (trace r (WikiAllGet projectID) w)
    ∧ map request_path (trace r (WikiDelete projectID "index") w)
      = map request_path (trace r (WikiAllGet projectID) w).
Proof.
  intros. split; [|split; run_calls; cbn [map request_path event_request request_uri Path];
                    rewrite ?page_path_assoc, !append_assoc; reflexivity].
  apply (run_equal_paths r w
    (fun path =>
       Call (Get (addr single_target zero_wikiSingleResult)
               {| Path := path;
                  RawQuery := Values_Encode (urlIncludes ∅ (Includes req));
                  ForceQuery := false |} StatusOK)
         (fun rep => Ret (wikiSingleResult_WikiPage (filled rep), status rep, err rep)))).
  rewrite !append_assoc. reflexivity.
Qed.

(** X4. Where the project identifier ends and the title begins is not
    kept either: a project [p/wiki/a] with title [t] and a project [p]
    with title [a/wiki/t] give the same run of [WikiDelete],
    [WikiUpdate], [WikiCreate] and [WikiSingleGet], call for call and
    result for result. *)
Theorem wiki_project_title_boundary :
  ∀ (W : Type) (r : RContext W) (w : W) (p a t : string)
    (req : WikiSingleGetRequest) (create : WikiCreateObject)
    (update : WikiUpdateObject),
    run r (WikiDelete (p +:+ "/wiki/" +:+ a) t) w
      = run r (WikiDelete p (a +:+ "/wiki/" +:+ t)) w
    ∧ run r (WikiUpdate (p +:+ "/wiki/" +:+ a) t update) w
      = run r (WikiUpdate p (a +:+ "/wiki/" +:+ t) update) w
    ∧ run r (WikiCreate (p +:+ "/wiki/" +:+ a) t create) w
      = run r (WikiCreate p (a +:+ "/wiki/" +:+ t) create) w
    ∧ run r (WikiSingleGet (p +:+ "/wiki/" +:+ a) t req) w
      = run r (WikiSingleGet p (a +:+ "/wiki/" +:+ t) req) w.
Proof.
  intros. repeat split.
  - apply (run_equal_paths r w
      (fun path =>
         Call (Del in_nil out_nil {| Path := path; RawQuery := ""; ForceQuery := false |}
                 StatusNoContent)
           (fun rep => Ret (status rep, err rep)))).
    rewrite !append_assoc. reflexivity.
  - apply (run_equal_paths r w
      (fun path =>
         Call (Put (in_wikiUpdate {| wikiUpdate_WikiPage := update |}) out_nil
                 {| Path := path; RawQuery := ""; ForceQuery := false |} StatusNoContent)
           (fun rep => Ret (status rep, err rep)))).
    rewrite !append_assoc. reflexivity.
  - apply (run_equal_paths r w
      (fun path =>
         Call (Put (in_wikiCreate {| wikiCreate_WikiPage := create |})
                 (addr single_target zero_wikiSingleResult)
                 {| Path := path; RawQuery := ""; ForceQuery := false |} StatusCreated)
           (fun rep => Ret (wikiSingleResult_WikiPage (filled rep), status rep, err rep)))).
    rewrite !append_assoc. reflexivity.
  - apply (run_equal_paths r w
      (fun path =>
         Call (Get (addr single_target zero_wikiSingleResult)
                 {| Path := path;
                    RawQuery := Values_Encode (urlIncludes ∅ (Includes req));
                    ForceQuery := false |} StatusOK)
           (fun rep => Ret (wikiSingleResult_WikiPage (filled rep), status rep, err rep)))).
    rewrite !append_assoc. reflexivity.
Qed.

(** *** When paths do tell pages apart *)

Lemma page_path_inj (p p' t t' : string) :
  slash_free p → slash_free p' →
  "/projects/" +:+ p +:+ "/wiki/" +:+ t +:+ ".json"
  = "/projects/" +:+ p' +:+ "/wiki/" +:+ t' +:+ ".json" →
  p = p' ∧ t = t'.
Proof.
  intros Hp Hp' H. apply append_inv_head in H.
  change (p +:+ String "/" ("wiki/" +:+ t +:+ ".json")
          = p' +:+ String "/" ("wiki/" +:+ t' +:+ ".json")) in H.
  destruct (split_at_first_slash _ _ _ _ Hp Hp' H) as [-> Hrest].
  apply append_inv_head, append_inv_tail in Hrest. split; [reflexivity | exact Hrest].
Qed.

(** X5. When project identifiers contain no '/', the path of a page
    operation determines the project and the title: two calls of
    [WikiDelete], of [WikiUpdate], of [WikiCreate] or of [WikiSingleGet]
    with the same path are for the same project and the same title,
    whatever bytes the titles contain. *)
Theorem wiki_page_path_determines_page :
  ∀ (W : Type) (r r' : RContext W) (w w' : W) (p p' t t' : string)
    (req req' : WikiSingleGetRequest) (create create' : WikiCreateObject)
    (update update' : WikiUpdateObject),
    slash_free p → slash_free p' →
    (map request_path (trace r (WikiDelete p t) w)
       = map request_path (trace r' (WikiDelete p' t') w') → p = p' ∧ t = t')
    ∧ (map request_path (trace r (WikiUpdate p t update) w)
       = map request_path (trace r' (WikiUpdate p' t' update') w') → p = p' ∧ t = t')
    ∧ (map request_path (trace r (WikiCreate p t create) w)
       = map request_path (trace r' (WikiCreate p' t' create') w') → p = p' ∧ t = t')
    ∧ (map request_path (trace r (WikiSingleGet p t req) w)
       = map request_path (trace r' (WikiSingleGet p' t' req') w') → p = p' ∧ t = t').
Proof.
  intros W r r' w w' p p' t t' req req' create create' update update' Hp Hp'.
  split; [|split; [|split]]; run_calls;
    cbn [map request_path event_request request_uri Path];
    intros H; apply singleton_eq in H; rewrite !page_path_assoc in H;
    apply (page_path_inj p p' t t' Hp Hp' H).
Qed.

(** X6. When project identifiers contain no '/', the path of
    [WikiSingleVersionGet] determines the project, the title and the
    version: the numeral is the part after the last '/', and different
    versions have different numerals. *)
Theorem wiki_version_path_determines_version :
  ∀ (W : Type) (r r' : RContext W) (w w' : W) (p p' t t' : string) (v v' : Z)
    (req req' : WikiSingleGetRequest),
    slash_free p → slash_free p' →
    map request_path (trace r (WikiSingleVersionGet p t v req) w)
      = map request_path (trace r' (WikiSingleVersionGet p' t' v' req') w') →
    p = p' ∧ t = t' ∧ v = v'.
Proof.
  intros W r r' w w' p p' t t' v v' req req' Hp Hp'.
  run_calls. cbn [map request_path event_request request_uri Path].
  intros H. apply singleton_eq in H. rewrite !version_path_assoc in H.
  apply append_inv_head in H.
  change (p +:+ String "/" ("wiki/" +:+ t +:+ "/" +:+ Itoa v +:+ ".json")
          = p' +:+ String "/" ("wiki/" +:+ t' +:+ "/" +:+ Itoa v' +:+ ".json")) in H.
  destruct (split_at_first_slash _ _ _ _ Hp Hp' H) as [-> Hrest].
  apply append_inv_head in Hrest.
  change (t +:+ String "/" (Itoa v +:+ ".json")
          = t' +:+ String "/" (Itoa v' +:+ ".json")) in Hrest.
  assert (Hfree : ∀ i, slash_free (Itoa i +:+ ".json")).
  { intros i. unfold slash_free. rewrite has_byte_append, (Itoa_slash_free i).
    reflexivity. }
  destruct (split_at_last_slash _ _ _ _ (Hfree v) (Hfree v') Hrest) as [-> Hnum].
  apply append_inv_tail, Itoa_inj in Hnum. auto.
Qed.

(** X7. The version segment [WikiSingleVersionGet] writes into the path
    is never empty and consists of decimal digits after an optional
    leading '-', for every version, negative ones and zero included: it
    contains no '/', and it reads back as the version. *)
Theorem wiki_version_segment_is_numeral :
  ∀ (W : Type) (r : RContext W) (w : W) (projectID wikiTitle : string) (version : Z)
    (req : WikiSingleGetRequest),
    map request_path (trace r (WikiSingleVersionGet projectID wikiTitle version req) w)
      = ["/projects/" +:+ projectID +:+ "/wiki/" +:+ wikiTitle +:+ "/"
         +:+ Itoa version +:+ ".json"]
    ∧ Itoa version ≠ ""
    ∧ all_bytes is_digit_or_minus (Itoa version) = true
    ∧ all_bytes is_digit (Itoa (Z.abs version)) = true
    ∧ Itoa version = (if version <? 0 then "-" else "") +:+ Itoa (Z.abs version)
    ∧ ParseUint (Itoa (Z.abs version)) = Some (Z.abs version)
    ∧ slash_free (Itoa version).
Proof.
  intros. split; [|split; [|split; [|split; [|split; [|split]]]]].
  - run_calls. cbn [map request_path event_request request_uri Path].
    rewrite version_path_assoc. reflexivity.
  - unfold Itoa. destruct (Z.ltb_spec version 0) as [Hneg | Hpos]; [discriminate|].
    destruct (FormatUint_head version Hpos) as (d & rest & _ & ->). discriminate.
  - apply Itoa_bytes.
  - unfold Itoa. destruct (Z.ltb_spec (Z.abs version) 0) as [Habs | Habs]; [lia|].
    apply FormatUint_all_digits, Habs.
  - unfold Itoa. destruct (Z.ltb_spec version 0) as [Hneg | Hpos];
      destruct (Z.ltb_spec (Z.abs version) 0) as [Habs | Habs]; try lia.
    + rewrite Z.abs_neq by lia. reflexivity.
    + rewrite Z.abs_eq by lia. reflexivity.
  - unfold Itoa. destruct (Z.ltb_spec (Z.abs version) 0) as [Habs | Habs]; [lia|].
    apply ParseUint_FormatUint, Habs.
  - apply Itoa_slash_free.
Qed.

(** *** The raw query *)







(** *** Decoding responses *)



(** A member that selects no field changes nothing. *)
Lemma set_WikiObject_unknown (key : string) (j : json) (p : WikiObject) :
  find_field WikiObject_tags key = None → set_WikiObject key j p = p.
Proof. intros H. unfold set_WikiObject. rewrite H. reflexivity. Qed.

(** Members that select different fields can be stored in either order. *)
Lemma set_WikiObject_comm (k1 k2 : string) (j1 j2 : json) (p : WikiObject) :
  find_field WikiObject_tags k1 ≠ find_field WikiObject_tags k2 →
  set_WikiObject k1 j1 (set_WikiObject k2 j2 p)
  = set_WikiObject k2 j2 (set_WikiObject k1 j1 p).
Proof.
  unfold set_WikiObject.
  destruct (find_field WikiObject_tags k1) as [n1|],
           (find_field WikiObject_tags k2) as [n2|]; intros Hne; try reflexivity.
  do 9 (destruct n1 as [|n1]; [do 9 (destruct n2 as [|n2];
      [first [congruence | reflexivity]|]); reflexivity|]).
  do 9 (destruct n2 as [|n2]; [reflexivity|]). reflexivity.
Qed.

Lemma selected_fields_cons (kv : string * json) (members : list (string * json)) :
  selected_fields (kv :: members)
  = match find_field WikiObject_tags (fst kv) with
    | Some i => i :: selected_fields members
    | None => selected_fields members
    end.
Proof. reflexivity. Qed.

Lemma fold_set_WikiObject_perm (ms ms' : list (string * json)) :
  ms ≡ₚ ms' → NoDup (selected_fields ms) →
  ∀ p : WikiObject,
    fold_left (fun acc kv => set_WikiObject (fst kv) (snd kv) acc) ms p
    = fold_left (fun acc kv => set_WikiObject (fst kv) (snd kv) acc) ms' p.
Proof.
  induction 1 as [|x l l' Hperm IH|x y l|l l' l'' Hperm1 IH1 Hperm2 IH2];
    intros Hnd p.
  - reflexivity.
  - cbn [fold_left]. apply IH. rewrite selected_fields_cons in Hnd.
    destruct (find_field WikiObject_tags (fst x)); [|exact Hnd].
    apply NoDup_cons in Hnd as [_ Hnd]. exact Hnd.
  - cbn [fold_left]. f_equal. rewrite !selected_fields_cons in Hnd.
    destruct (find_field WikiObject_tags (fst x)) as [a|] eqn:Hx;
      [|rewrite (set_WikiObject_unknown _ _ _ Hx), (set_WikiObject_unknown _ _ _ Hx);
        reflexivity].
    destruct (find_field WikiObject_tags (fst y)) as [b|] eqn:Hy;
      [|rewrite (set_WikiObject_unknown _ _ _ Hy), (set_WikiObject_unknown _ _ _ Hy);
        reflexivity].
    apply set_WikiObject_comm. rewrite Hx, Hy. intros [= ->].
    apply NoDup_cons in Hnd as [Hin _]. apply Hin. left.
  - rewrite IH1 by exact Hnd. apply IH2.
    unfold selected_fields in *. rewrite <- Hperm1. exact Hnd.
Qed.

(** X9. The members of a [wiki_page] object can come in any order: when
    no two of them select the same field of [WikiObject], two objects
    with the same members decode to the same page, and so do the
    response bodies that wrap them. *)
Theorem wiki_page_member_order_irrelevant :
  ∀ (members members' : list (string * json)) (p : WikiObject) (res : wikiSingleResult),
    members ≡ₚ members' →
    NoDup (selected_fields members) →
    unmarshal_WikiObject (JObj members) p = unmarshal_WikiObject (JObj members') p
    ∧ unmarshal_wikiSingleResult (JObj [("wiki_page", JObj members)]) res
      = unmarshal_wikiSingleResult (JObj [("wiki_page", JObj members')]) res.
Proof.
  intros members members' p res Hperm Hnd.
  assert (Hpage : ∀ q, unmarshal_WikiObject (JObj members) q
                       = unmarshal_WikiObject (JObj members') q)
    by (intros q; apply fold_set_WikiObject_perm; assumption).
  split; [apply Hpage|].
  unfold unmarshal_wikiSingleResult, unmarshal_struct. cbn [fold_left fst snd].
  unfold set_wikiSingleResult. rewrite find_wiki_page, Hpage. reflexivity.
Qed.


Lemma unmarshal_without_wiki_page (body : json) (res : wikiSingleResult) :
  lacks_wiki_page body = true → unmarshal_wikiSingleResult body res = res.
Proof.
  unfold unmarshal_wikiSingleResult, unmarshal_struct.
  destruct body as [| | | | |members]; try reflexivity.
  cbn [lacks_wiki_page]. revert res.
  induction members as [|[key j] members IH]; intros res Hlacks; [reflexivity|].
  cbn [forallb fst] in Hlacks. apply andb_true_iff in Hlacks as [Hkey Hlacks].
  cbn [fold_left fst snd]. unfold set_wikiSingleResult at 2.
  destruct (find_field ["wiki_page"] key); [discriminate|]. apply IH, Hlacks.
Qed.

(** X11. A response body without a [wiki_page] member, such as the
    [{"errors": [...]}] of a rejected request or a body that is no
    object, leaves the result untouched: when the transport decodes such
    a body, [WikiCreate], [WikiSingleGet] and [WikiSingleVersionGet]
    return the zero [WikiObject], whatever status and error come with
    it. *)
Theorem wiki_body_without_page_gives_zero :
  ∀ (W : Type) (r : RContext W) (w : W) (projectID wikiTitle : string) (version : Z)
    (req : WikiSingleGetRequest) (create : WikiCreateObject) (body : json),
    lacks_wiki_page body = true →
    (fills_from body r (WikiCreate projectID wikiTitle create) w →
     value_of (result r (WikiCreate projectID wikiTitle create) w) = zero_WikiObject)
    ∧ (fills_from body r (WikiSingleGet projectID wikiTitle req) w →
       value_of (result r (WikiSingleGet projectID wikiTitle req) w) = zero_WikiObject)
    ∧ (fills_from body r (WikiSingleVersionGet projectID wikiTitle version req) w →
       value_of (result r (WikiSingleVersionGet projectID wikiTitle version req) w)
       = zero_WikiObject).
Proof.
  intros W r w projectID wikiTitle version req create body Hlacks.
  unfold fills_from.
  split; [|split]; run_calls; cbn [map]; intros Hfill;
    apply singleton_eq in Hfill; apply (f_equal pointer_page) in Hfill;
    cbn [event_filled event_request event_response request_out decode_into
           pointer_page out_target] in Hfill;
    rewrite (unmarshal_without_wiki_page body _ Hlacks) in Hfill;
    unfold value_of; cbv beta;
    cbn [fst event_request request_out out_target] in Hfill |- *;
    injection Hfill as ->; reflexivity.
Qed.

(** *** Requests read back as responses *)





(** *** Strings coerced to valid UTF-8 *)













(** *** Endpoints that stay apart *)

(** X13. With project identifiers and titles that contain no '/', the
    endpoints stay apart: the path of [WikiSingleVersionGet] is never
    the path of a [WikiSingleGet], and the path of a [WikiSingleGet] is
    the path of a [WikiAllGet] only for the same project and the title
    [index]. *)
Theorem wiki_endpoints_apart :
  ∀ (W : Type) (r r' : RContext W) (w w' : W) (p p' t t' : string) (v : Z)
    (req req' : WikiSingleGetRequest),
    slash_free p → slash_free p' → slash_free t' →
    map request_path (trace r (WikiSingleVersionGet p t v req) w)
      ≠ map request_path (trace r' (WikiSingleGet p' t' req') w')
    ∧ (map request_path (trace r (WikiSingleGet p t req) w)
         = map request_path (trace r' (WikiAllGet p') w')
       ↔ p = p' ∧ t = "index").
Proof.
  intros W r r' w w' p p' t t' v req req' Hp Hp' Ht'. split.
  - run_calls. cbn [map request_path event_request request_uri Path].
    intros H. apply singleton_eq in H.
    rewrite version_path_assoc, page_path_assoc in H. apply append_inv_head in H.
    change (p +:+ String "/" ("wiki/" +:+ t +:+ "/" +:+ Itoa v +:+ ".json")
            = p' +:+ String "/" ("wiki/" +:+ t' +:+ ".json")) in H.
    destruct (split_at_first_slash _ _ _ _ Hp Hp' H) as [_ Hrest].
    apply append_inv_head in Hrest. apply (f_equal (has_byte "/")) in Hrest.
    rewrite !has_byte_append in Hrest. unfold slash_free in Ht'. rewrite Ht' in Hrest.
    cbn in Hrest. rewrite orb_true_r in Hrest. discriminate.
  - run_calls. cbn [map request_path event_request request_uri Path]. split.
    + intros H. apply singleton_eq in H. rewrite page_path_assoc in H.
      replace (("/projects/" +:+ p') +:+ "/wiki/index.json")
        with ("/projects/" +:+ p' +:+ "/wiki/" +:+ "index" +:+ ".json") in H
        by (rewrite !append_assoc; reflexivity).
      apply (page_path_inj p p' t "index" Hp Hp' H).
    + intros [-> ->]. rewrite !append_assoc. reflexivity.
Qed.

(** *** Well-formed request bodies *)

(** X14. The [wiki_page] object of a request never holds a null and
    never repeats a member name: its member names are [text] followed by
    some of [comments], [version], [uploads] in this order, and the
    values are strings, a number and an array.  A nil [Uploads] is left
    out, not sent as null. *)
Theorem wiki_request_page_well_formed :
  ∀ (create : WikiCreateObject) (update : WikiUpdateObject),
    let well_formed (page : json) :=
      NoDup (top_level_keys page)
      ∧ sublist (top_level_keys page) ["text"; "comments"; "version"; "uploads"]
      ∧ head (top_level_keys page) = Some "text"
      ∧ ∀ key : string, member key page ≠ Some JNull in
    well_formed (marshal_WikiCreateObject create)
    ∧ well_formed (marshal_WikiUpdateObject update)
    ∧ member "version" (marshal_WikiCreateObject create) = None.
Proof.
  intros [ctext ccomments cuploads] [utext ucomments uversion uuploads] well_formed.
  subst well_formed. cbv beta.
  unfold marshal_WikiCreateObject, marshal_WikiUpdateObject, empty_string, empty_int,
    empty_slice, field, field_omitempty, marshal_string, marshal_int.
  cbn [WikiCreateObject_Text WikiCreateObject_Comments WikiCreateObject_Uploads
         WikiUpdateObject_Text WikiUpdateObject_Comments WikiUpdateObject_Version
         WikiUpdateObject_Uploads].
  assert (Hkeys : ∀ l : list string,
             sublist l ["text"; "comments"; "version"; "uploads"] → NoDup l).
  { intros l Hl. eapply sublist_NoDup; [|exact Hl].
    apply (bool_decide_unpack (NoDup ["text"; "comments"; "version"; "uploads"])).
    vm_compute. exact I. }
  assert (Hmember : ∀ (key : string) (ms : list (string * json)),
             Forall (fun kv => snd kv ≠ JNull) ms → member key (JObj ms) ≠ Some JNull).
  { intros key ms Hms. cbn [member].
    induction Hms as [|[k j] ms Hj Hms IH]; [discriminate|].
    cbn [find fst snd]. destruct (String.eqb k key); [|exact IH].
    cbn [fmap option_fmap option_map snd] in *. congruence. }
  destruct (String.eqb ccomments ""), (String.eqb ucomments ""), (uversion =? 0),
           cuploads as [|[|cu cl]], uuploads as [|[|uu ul]];
    cbn [len elems length Z.of_nat Z.eqb app top_level_keys map fst head marshal_slice];
    (split; [|split; [|reflexivity]]);
    (split; [apply Hkeys|split; [|split; [reflexivity|]]]);
    try (intros key; apply Hmember; repeat constructor; discriminate);
    try (repeat first [apply sublist_nil | apply sublist_skip | apply sublist_cons]).
Qed.

End WikiFurtherProperties.

(* ================================================================== *)
(** ** Concrete runs of the further properties *)

(** X5 on the pages "Home" and "Start" of project "demo": deleting one
    does not have the path of deleting the other. *)
Lemma wiki_page_path_determines_page_witness :
  slash_free "demo"
  ∧ map request_path (trace refusing_transport (WikiDelete "demo" "Home") tt)
    ≠ map request_path (trace refusing_transport (WikiDelete "demo" "Start") tt).
Proof.
  assert (Hp : slash_free "demo") by reflexivity.
  split; [exact Hp|]. intros Hpaths.
  destruct (wiki_page_path_determines_page unit refusing_transport refusing_transport
              tt tt "demo" "demo" "Home" "Start" with_attachments with_attachments
              home_create home_create home_update home_update Hp Hp)
    as (Hdelete & _).
  destruct (Hdelete Hpaths) as [_ Htitle]. discriminate Htitle.
Defined.

(** X6 on versions 3 and 4 of the page "Home". *)
Lemma wiki_version_path_determines_version_witness :
  slash_free "demo"
  ∧ map request_path
      (trace refusing_transport (WikiSingleVersionGet "demo" "Home" 3 with_attachments) tt)
    ≠ map request_path
        (trace refusing_transport (WikiSingleVersionGet "demo" "Home" 4 with_attachments) tt).
Proof.
  assert (Hp : slash_free "demo") by reflexivity.
  split; [exact Hp|]. intros Hpaths.
  destruct (wiki_version_path_determines_version unit refusing_transport
              refusing_transport tt tt "demo" "demo" "Home" "Home" 3 4
              with_attachments with_attachments Hp Hp Hpaths) as (_ & _ & Hversion).
  discriminate Hversion.
Defined.

(** X9 on the page of the scenario and its members in reverse order. *)
Lemma wiki_page_member_order_irrelevant_witness :
  home_members ≡ₚ home_members_reversed
  ∧ NoDup (selected_fields home_members)
  ∧ unmarshal_WikiObject (JObj home_members) zero_WikiObject
    = unmarshal_WikiObject (JObj home_members_reversed) zero_WikiObject.
Proof.
  assert (Hperm : home_members ≡ₚ home_members_reversed) by apply Permutation_rev.
  assert (Hnd : NoDup (selected_fields home_members)).
  { apply (bool_decide_unpack (NoDup (selected_fields home_members))).
    vm_compute. exact I. }
  split; [exact Hperm|]. split; [exact Hnd|].
  exact (proj1 (wiki_page_member_order_irrelevant home_members home_members_reversed
                  zero_WikiObject zero_wikiSingleResult Hperm Hnd)).
Defined.

(** X11 on a rejected create: the transport answers 422 with an errors
    body, and the page returned is the zero page. *)
Lemma wiki_body_without_page_gives_zero_witness :
  lacks_wiki_page errors_body = true
  ∧ fills_from errors_body (decoding_transport errors_body 422 None)
      (WikiCreate "demo" "Home" home_create) tt
  ∧ value_of (result (decoding_transport errors_body 422 None)
                (WikiCreate "demo" "Home" home_create) tt) = zero_WikiObject.
Proof.
  assert (Hlacks : lacks_wiki_page errors_body = true) by reflexivity.
  assert (Hfill : fills_from errors_body (decoding_transport errors_body 422 None)
                    (WikiCreate "demo" "Home" home_create) tt) by reflexivity.
  split; [exact Hlacks|]. split; [exact Hfill|].
  destruct (wiki_body_without_page_gives_zero unit (decoding_transport errors_body 422 None)
              tt "demo" "Home" 3 with_attachments home_create errors_body Hlacks)
    as (Hcreate & _).
  exact (Hcreate Hfill).
Defined.


(** X13 on version 3 of "Home" and on the page list of "demo". *)
Lemma wiki_endpoints_apart_witness :
  slash_free "demo" ∧ slash_free "Home"
  ∧ map request_path
      (trace refusing_transport (WikiSingleVersionGet "demo" "Home" 3 with_attachments) tt)
    ≠ map request_path
        (trace refusing_transport (WikiSingleGet "demo" "Home" with_attachments) tt).
Proof.
  assert (Hp : slash_free "demo") by reflexivity.
  assert (Ht : slash_free "Home") by reflexivity.
  split; [exact Hp|]. split; [exact Ht|].
  exact (proj1 (wiki_endpoints_apart unit refusing_transport refusing_transport tt tt
                  "demo" "demo" "Home" "Home" 3 with_attachments with_attachments
                  Hp Hp Ht)).
Defined.
